(** * Load-aware scoring and batch-resource admission of the koordinator scheduler

    A shallow embedding of
    - [pkg/scheduler/plugins/loadaware/load_aware.go] (resource estimator,
      pending-assignment estimate, node scorer, expiration helpers), and
    - the [batchresource] plugin (batch-tier admission filter),
    together with the properties the specification states about them.

    Conventions of the embedding:
    - Go [int64] values are integers of [Z]; every [int64] operation of the
      source is written with its wrap-around ([Int64.add], [Int64.sub], ...).
    - Go maps are [gmap]s; reading an absent key yields the zero value.
    - A Go panic (division by zero, nil dereference) is the result [None]. *)

From Stdlib Require Import ZArith Lia List.
From stdpp Require Import gmap strings list fin_maps.

Local Open Scope Z_scope.

(** ** 64-bit signed integers *)

Module Int64.

Definition min : Z := - 2 ^ 63.
Definition max : Z := 2 ^ 63 - 1.

Definition in_range (z : Z) : Prop := min <= z <= max.

(** Two's-complement reduction of an integer to the [int64] range. *)
Definition wrap (z : Z) : Z := (z + 2 ^ 63) mod 2 ^ 64 - 2 ^ 63.

Definition add (a b : Z) : Z := wrap (a + b).
Definition sub (a b : Z) : Z := wrap (a - b).
Definition mul (a b : Z) : Z := wrap (a * b).

(** Go's [/] on integers truncates towards zero; the divisor is non-zero
    wherever this is used (a zero divisor panics and is modelled apart). *)
Definition quot (a b : Z) : Z := wrap (a ÷ b).

End Int64.

(** ** Resource quantities and resource lists *)

(** [resource.Quantity] of the Kubernetes API machinery is a fixed-point
    decimal.  The embedding keeps a quantity as its number of milli-units,
    the finest scale the scheduler reads: [MilliValue] is that number and
    [Value] is the number of whole units, rounded away from zero.  Both
    accessors return an [int64]; a quantity too large for one is outside
    the model, and the accessors reduce it to 64 bits so that they stay
    total. *)
Record Quantity := mkQuantity { milliUnits : Z }.

Definition zeroQuantity : Quantity := mkQuantity 0.

Definition Cmp (q r : Quantity) : Z :=
  match milliUnits q ?= milliUnits r with
  | Lt => -1
  | Eq => 0
  | Gt => 1
  end.

Definition IsZero (q : Quantity) : bool := milliUnits q =? 0.
Definition MilliValue (q : Quantity) : Z := Int64.wrap (milliUnits q).
Definition Value (q : Quantity) : Z :=
  Int64.wrap (if 0 <=? milliUnits q
              then (milliUnits q + 999) / 1000
              else - ((- milliUnits q + 999) / 1000)).

(** A quantity of [n] whole units, as [resource.NewQuantity n] builds it. *)
Definition units (n : Z) : Quantity := mkQuantity (1000 * n).

(** [corev1.ResourceName] is a string. *)
Definition ResourceCPU : string := "cpu".
Definition ResourceMemory : string := "memory".
Definition ResourcePods : string := "pods".
Definition ResourceEphemeralStorage : string := "ephemeral-storage".

(** Modelled from the spec: the batch-tier resource exists under two naming
    generations, declared in [apis/extension] (not among the sources at hand).
    [BatchCPU] and [BatchMemory] are the current names, [KoordBatchCPU] and
    [KoordBatchMemory] the legacy ones; only their being distinct strings is
    relied upon. *)
Definition BatchCPU : string := "kubernetes.io/batch-cpu".
Definition BatchMemory : string := "kubernetes.io/batch-memory".
Definition KoordBatchCPU : string := "koordinator.sh/batch-cpu".
Definition KoordBatchMemory : string := "koordinator.sh/batch-memory".

(** [rl[name]] on a [corev1.ResourceList]: the zero quantity when absent. *)
Definition quantityOf (rl : gmap string Quantity) (name : string) : Quantity :=
  default zeroQuantity (rl !! name).

(** [m[name]] on a [map[corev1.ResourceName]int64]: [0] when absent. *)
Definition int64Of (m : gmap string Z) (name : string) : Z :=
  default 0 (m !! name).

(** ** Workloads *)

(** The part of [corev1.Container] and [corev1.Pod] the two plugins read:
    the declared requests and limits of the containers and of the init
    containers, and the optional per-pod overhead ([nil] is [None]). *)
Record Container := mkContainer {
  Requests : gmap string Quantity;
  Limits : gmap string Quantity
}.

Record Pod := mkPod {
  Containers : list Container;
  InitContainers : list Container;
  Overhead : option (gmap string Quantity)
}.

(** [framework.Status]: a nil status is success. *)
Inductive Code := Error | Unschedulable.

Inductive Status :=
| StatusNil
| NewStatus (code : Code) (reasons : list string).

(** ** The load-aware plugin *)

Module LoadAware.

Definition DefaultMilliCPURequest : Z := 250.
Definition DefaultMemoryRequest : Z := 200 * 1024 * 1024.
Definition Second : Z := 1000000000.
Definition DefaultNodeMetricReportInterval : Z := 60 * Second.
Definition MaxNodeScore : Z := 100.

(** [int64(math.Round(float64(v) * float64(scalingFactor) / 100))].
    [math.Round] rounds half away from zero.  The floating-point expression
    is exact, hence equal to this integer one, as long as the product
    [v * scalingFactor] stays below [2 ^ 53] in absolute value.  Beyond that
    the source rounds in floating point and converts to [int64], and this
    integer need not be what it returns: statements about magnitudes of the
    estimate carry that bound. *)
Definition roundScaled (v scalingFactor : Z) : Z :=
  let p := v * scalingFactor in
  if 0 <=? p then (p + 50) / 100 else - ((- p + 50) / 100).

Definition estimatedUsedByResource
    (requests limits : gmap string Quantity) (resourceName : string)
    (scalingFactor : Z) : Z :=
  let limitQuantity := quantityOf limits resourceName in
  let requestQuantity := quantityOf requests resourceName in
  let '(scalingFactor, quantity) :=
    if 0 <? Cmp limitQuantity requestQuantity
    then (100, limitQuantity)
    else (scalingFactor, requestQuantity) in
  if IsZero quantity then
    if String.eqb resourceName ResourceCPU || String.eqb resourceName BatchCPU
    then DefaultMilliCPURequest
    else if String.eqb resourceName ResourceMemory
            || String.eqb resourceName BatchMemory
    then DefaultMemoryRequest
    else 0
  else if String.eqb resourceName ResourceCPU then
    let estimatedUsed := roundScaled (MilliValue quantity) scalingFactor in
    if MilliValue limitQuantity <? estimatedUsed
    then MilliValue limitQuantity
    else estimatedUsed
  else
    let estimatedUsed := roundScaled (Value quantity) scalingFactor in
    if Value limitQuantity <? estimatedUsed
    then Value limitQuantity
    else estimatedUsed.


(** *** The node scorer *)

Definition leastRequestedScore (requested capacity : Z) : Z :=
  if capacity =? 0 then 0
  else if capacity <? requested then 0
  else Int64.quot (Int64.mul (Int64.sub capacity requested) MaxNodeScore) capacity.

(** One turn of the loop of [loadAwareSchedulingScorer] over the weight map:
    the state is the pair [(nodeScore, weightSum)]. *)
Definition scorerStep (used allocatable : gmap string Z)
    (resourceName : string) (weight : Z) (acc : Z * Z) : Z * Z :=
  let resourceScore :=
    leastRequestedScore (int64Of used resourceName)
                        (int64Of allocatable resourceName) in
  (Int64.add (fst acc) (Int64.mul resourceScore weight),
   Int64.add (snd acc) weight).

(** [nodeScore / weightSum] panics when the weights sum to zero. *)
Definition loadAwareSchedulingScorer
    (resToWeightMap used allocatable : gmap string Z) : option Z :=
  let '(nodeScore, weightSum) :=
    map_fold (scorerStep used allocatable) (0, 0) resToWeightMap in
  if weightSum =? 0 then None else Some (Int64.quot nodeScore weightSum).

(** *** Telemetry snapshots and configuration *)

(** [time.Time] is a number of nanoseconds since the epoch, [time.Duration]
    a number of nanoseconds held in an [int64]. *)
Definition After (t u : Z) : bool := u <? t.
Definition Before (t u : Z) : bool := t <? u.

(** [t.Sub(u)] saturates at the largest and smallest duration. *)
Definition Sub (t u : Z) : Z := Z.max Int64.min (Z.min Int64.max (t - u)).

(** [time.Duration(seconds) * time.Second] *)
Definition secondsToDuration (seconds : Z) : Z := Int64.mul seconds Second.

(** [slov1alpha1.NodeMetric]: [Spec.CollectPolicy.ReportIntervalSeconds],
    [Status.UpdateTime] and [Status.NodeMetric.NodeUsage.ResourceList];
    each pointer of the source is an option. *)
Record NodeMetricCollectPolicy := mkCollectPolicy {
  ReportIntervalSeconds : option Z
}.

Record NodeMetricInfo := mkNodeMetricInfo {
  NodeUsage : gmap string Quantity
}.

Record NodeMetric := mkNodeMetric {
  CollectPolicy : option NodeMetricCollectPolicy;
  UpdateTime : option Z;
  StatusNodeMetric : option NodeMetricInfo
}.

(** [config.LoadAwareSchedulingArgs] *)
Record LoadAwareSchedulingArgs := mkArgs {
  FilterExpiredNodeMetrics : option bool;
  NodeMetricExpirationSeconds : option Z;
  ResourceWeights : gmap string Z;
  UsageThresholds : gmap string Z;
  EstimatedScalingFactors : gmap string Z
}.

(** Modelled from the spec: an assignment record holds the workload and the
    time of its assignment, and the tracker maps a node name to the records
    of that node ([podAssignCache], declared outside the sources at hand). *)
Record podAssignInfo := mkAssignInfo {
  timestamp : Z;
  pod : Pod
}.

(** [time.Since] reads the clock; the current time is the argument [now]. *)
Definition isNodeMetricExpired (now : Z) (nodeMetric : option NodeMetric)
    (nodeMetricExpirationSeconds : Z) : bool :=
  match nodeMetric with
  | None => true
  | Some nm =>
    match UpdateTime nm with
    | None => true
    | Some updateTime =>
      (0 <? nodeMetricExpirationSeconds)
      && (secondsToDuration nodeMetricExpirationSeconds <=? Sub now updateTime)
    end
  end.

Definition getNodeMetricReportInterval (nodeMetric : NodeMetric) : Z :=
  match CollectPolicy nodeMetric with
  | None => DefaultNodeMetricReportInterval
  | Some policy =>
    match ReportIntervalSeconds policy with
    | None => DefaultNodeMetricReportInterval
    | Some seconds => secondsToDuration seconds
    end
  end.

(** [for resourceName, value := range from { into[resourceName] += value }] *)
Definition addInto (into from : gmap string Z) : gmap string Z :=
  map_fold (λ resourceName value acc,
              <[resourceName := Int64.add (int64Of acc resourceName) value]> acc)
           into from.

(** [corev1.Node], as far as the plugin reads it: the name, the declared
    allocatable capacity, and the outcome of
    [extension.GetCustomUsageThresholds] on the node's annotations ([None]
    when the annotation does not parse). *)
Record Node := mkNode {
  Name : string;
  Allocatable : gmap string Quantity;
  CustomUsageThresholds : option (gmap string Z)
}.

(** The outcome of a lister's [Get]. *)
Inductive Lookup (A : Type) :=
| Found (a : A)
| NotFound
| LookupError (msg : string).

Arguments Found {A} a.
Arguments NotFound {A}.
Arguments LookupError {A} msg.

(** The [Plugin] with what its handle and listers answer. *)
Record Plugin := mkPlugin {
  nodeInfos : string → Lookup (option Node);
  args : LoadAwareSchedulingArgs;
  nodeMetricLister : string → Lookup NodeMetric;
  podInfoItems : gmap string (list podAssignInfo)
}.

Definition ErrReasonNodeMetricExpired : string := "node(s) nodeMetric expired".

Definition ErrReasonUsageExceedThreshold (resourceName : string) : string :=
  "node(s) " +:+ resourceName +:+ " usage exceed threshold".

Section Estimation.

(** The collaborators the plugin calls and does not own:
    [resourceapi.PodRequestsAndLimits] of Kubernetes, the priority class of a
    pod and the translation of a resource name by priority class of
    [apis/extension], and the floating-point usage percentage
    [int64(math.Round(float64(used) / float64(total) * 100))] of [Filter]. *)
Variable PriorityClass : Type.
Variable PodRequestsAndLimits : Pod → gmap string Quantity * gmap string Quantity.
Variable GetPriorityClass : Pod → PriorityClass.
Variable TranslateResourceNameByPriorityClass : PriorityClass → string → string.
Variable usagePercent : Z → Z → Z.

Definition estimatedPodUsed (pod : Pod)
    (resourceWeights scalingFactors : gmap string Z) : gmap string Z :=
  let '(requests, limits) := PodRequestsAndLimits pod in
  let priorityClass := GetPriorityClass pod in
  map_imap (λ resourceName _,
    let realResourceName :=
      TranslateResourceNameByPriorityClass priorityClass resourceName in
    Some (estimatedUsedByResource requests limits realResourceName
            (int64Of scalingFactors resourceName)))
    resourceWeights.

(** The loop of [estimatedAssignedPodUsage].  Its condition dereferences
    [nodeMetric.Status.UpdateTime], which panics on a nil pointer. *)
Fixpoint assignedLoop (a : LoadAwareSchedulingArgs) (updateTime : option Z)
    (nodeMetricReportInterval : Z) (items : list podAssignInfo)
    (estimatedUsed : gmap string Z) : option (gmap string Z) :=
  match items with
  | [] => Some estimatedUsed
  | assignInfo :: rest =>
    match updateTime with
    | None => None
    | Some t =>
      if After (timestamp assignInfo) t
         || Before (timestamp assignInfo) t
            && (Sub t (timestamp assignInfo) <? nodeMetricReportInterval)
      then
        let estimated :=
          estimatedPodUsed (pod assignInfo) (ResourceWeights a)
                           (EstimatedScalingFactors a) in
        assignedLoop a updateTime nodeMetricReportInterval rest
                     (addInto estimatedUsed estimated)
      else
        assignedLoop a updateTime nodeMetricReportInterval rest estimatedUsed
    end
  end.

Definition estimatedAssignedPodUsage (p : Plugin) (nodeName : string)
    (nodeMetric : NodeMetric) : option (gmap string Z) :=
  let nodeMetricReportInterval := getNodeMetricReportInterval nodeMetric in
  assignedLoop (args p) (UpdateTime nodeMetric) nodeMetricReportInterval
               (default [] (podInfoItems p !! nodeName)) ∅.

(** The loop of [Score] over the weighted resources: the allocatable map. *)
Definition nodeAllocatable (node : Node) (resourceWeights : gmap string Z)
    : gmap string Z :=
  map_imap (λ resourceName _,
    let quantity := quantityOf (Allocatable node) resourceName in
    Some (if String.eqb resourceName ResourceCPU
          then MilliValue quantity else Value quantity))
    resourceWeights.

(** The same loop: the reported usage added to the estimate. *)
Definition addNodeUsage (nodeMetric : NodeMetric)
    (resourceWeights estimatedUsed : gmap string Z) : gmap string Z :=
  match StatusNodeMetric nodeMetric with
  | None => estimatedUsed
  | Some info =>
    map_fold (λ resourceName _ acc,
      let quantity := quantityOf (NodeUsage info) resourceName in
      let reported := if String.eqb resourceName ResourceCPU
                      then MilliValue quantity else Value quantity in
      <[resourceName := Int64.add (int64Of acc resourceName) reported]> acc)
      estimatedUsed resourceWeights
  end.

Definition quoted (s : string) : string :=
  String (Ascii.ascii_of_nat 34) s +:+ String (Ascii.ascii_of_nat 34) "".

(** [Score] returns a score and a status; [None] is a panic. *)
Definition Score (p : Plugin) (now : Z) (pod : Pod) (nodeName : string)
    : option (Z * Status) :=
  match nodeInfos p nodeName with
  | NotFound =>
    Some (0, NewStatus Error
               ["getting node " +:+ quoted nodeName +:+ " from Snapshot: not found"])
  | LookupError msg =>
    Some (0, NewStatus Error
               ["getting node " +:+ quoted nodeName +:+ " from Snapshot: " +:+ msg])
  | Found None => Some (0, NewStatus Error ["node not found"])
  | Found (Some node) =>
    match nodeMetricLister p nodeName with
    | NotFound => Some (0, StatusNil)
    | LookupError msg => Some (0, NewStatus Error [msg])
    | Found nodeMetric =>
      if match NodeMetricExpirationSeconds (args p) with
         | Some seconds => isNodeMetricExpired now (Some nodeMetric) seconds
         | None => false
         end
      then Some (0, StatusNil)
      else
        let estimatedUsed :=
          estimatedPodUsed pod (ResourceWeights (args p))
                           (EstimatedScalingFactors (args p)) in
        match estimatedAssignedPodUsage p nodeName nodeMetric with
        | None => None
        | Some assigned =>
          let estimatedUsed := addInto estimatedUsed assigned in
          let allocatable := nodeAllocatable node (ResourceWeights (args p)) in
          let estimatedUsed :=
            addNodeUsage nodeMetric (ResourceWeights (args p)) estimatedUsed in
          match loadAwareSchedulingScorer (ResourceWeights (args p))
                                          estimatedUsed allocatable with
          | None => None
          | Some score => Some (score, StatusNil)
          end
        end
    end
  end.

(** The threshold loop of [Filter]; Go visits the map in no fixed order, the
    embedding in the order of [map_to_list]. *)
Fixpoint thresholdLoop (node : Node) (info : NodeMetricInfo)
    (usageThresholds : list (string * Z)) : Status :=
  match usageThresholds with
  | [] => StatusNil
  | (resourceName, threshold) :: rest =>
    if threshold =? 0 then thresholdLoop node info rest
    else
      let total := quantityOf (Allocatable node) resourceName in
      if IsZero total then thresholdLoop node info rest
      else
        let used := quantityOf (NodeUsage info) resourceName in
        let usage := usagePercent (MilliValue used) (MilliValue total) in
        if threshold <=? usage
        then NewStatus Unschedulable [ErrReasonUsageExceedThreshold resourceName]
        else thresholdLoop node info rest
  end.

Definition Filter (p : Plugin) (now : Z) (pod : Pod) (node : option Node)
    : Status :=
  match node with
  | None => NewStatus Error ["node not found"]
  | Some node =>
    match nodeMetricLister p (Name node) with
    | NotFound => StatusNil
    | LookupError msg => NewStatus Error [msg]
    | Found nodeMetric =>
      if match FilterExpiredNodeMetrics (args p),
               NodeMetricExpirationSeconds (args p) with
         | Some true, Some seconds =>
           isNodeMetricExpired now (Some nodeMetric) seconds
         | _, _ => false
         end
      then NewStatus Unschedulable [ErrReasonNodeMetricExpired]
      else
        let usageThresholds :=
          match CustomUsageThresholds node with
          | None => UsageThresholds (args p)
          | Some custom =>
            if 0 <? Z.of_nat (size custom) then custom
            else UsageThresholds (args p)
          end in
        if 0 <? Z.of_nat (size usageThresholds) then
          match StatusNodeMetric nodeMetric with
          | None => StatusNil
          | Some info => thresholdLoop node info (map_to_list usageThresholds)
          end
        else StatusNil
    end
  end.

End Estimation.

End LoadAware.

(** ** The scheduler framework's resource accounting *)

Module Framework.

(** [framework.Resource], as far as the batch plugin reads it: the map of
    scalar resources.  (The fields for cpu, memory, pods and ephemeral
    storage, which [Add] and [SetMaxResource] fill from the names of the same
    kind, are never read by the plugin and are left out.) *)
Record Resource := mkResource {
  ScalarResources : gmap string Z
}.

(** [framework.NodeInfo]: the requested and the allocatable resources. *)
Record NodeInfo := mkNodeInfo {
  Requested : Resource;
  Allocatable : Resource
}.

(** The names [Add] and [SetMaxResource] route to a field of their own. *)
Definition isNativeField (rName : string) : bool :=
  String.eqb rName ResourceCPU || String.eqb rName ResourceMemory
  || String.eqb rName ResourcePods || String.eqb rName ResourceEphemeralStorage.

Section Scalar.

(** [schedutil.IsScalarResourceName] of Kubernetes: extended, huge-page,
    prefixed native and attachable-volume resource names. *)
Variable IsScalarResourceName : string → bool.

Definition SetScalar (r : Resource) (name : string) (quantity : Z) : Resource :=
  mkResource (<[name := quantity]> (ScalarResources r)).

Definition AddScalar (r : Resource) (name : string) (quantity : Z) : Resource :=
  SetScalar r name (Int64.add (int64Of (ScalarResources r) name) quantity).

(** [r.Add(rl)] *)
Definition Add (r : Resource) (rl : gmap string Quantity) : Resource :=
  map_fold (λ rName rQuant r,
    if isNativeField rName then r
    else if IsScalarResourceName rName
    then AddScalar r rName (Value rQuant)
    else r) r rl.

(** [r.SetMaxResource(rl)] *)
Definition SetMaxResource (r : Resource) (rl : gmap string Quantity) : Resource :=
  map_fold (λ rName rQuantity r,
    if isNativeField rName then r
    else if IsScalarResourceName rName
    then SetScalar r rName
           (Z.max (int64Of (ScalarResources r) rName) (Value rQuantity))
    else r) r rl.

End Scalar.

End Framework.

(** [noderesources.InsufficientResource] *)
Module NodeResources.

Record InsufficientResource := mkInsufficientResource {
  ResourceName : string;
  Reason : string;
  Requested : Z;
  Used : Z;
  Capacity : Z
}.

End NodeResources.

(** ** The batch-resource plugin *)

Module BatchResource.

Import Framework.

Record batchResource := mkBatchResource {
  MilliCPU : Z;
  Memory : Z
}.

Definition computeNodeBatchAllocatable (nodeInfo : NodeInfo) : batchResource :=
  let scalar := ScalarResources (Allocatable nodeInfo) in
  let nodeAllocatable := mkBatchResource 0 0 in
  let nodeAllocatable :=
    match scalar !! KoordBatchCPU with
    | Some koordBatchCPU => mkBatchResource koordBatchCPU (Memory nodeAllocatable)
    | None => nodeAllocatable
    end in
  let nodeAllocatable :=
    match scalar !! KoordBatchMemory with
    | Some koordBatchMemory =>
      mkBatchResource (MilliCPU nodeAllocatable) koordBatchMemory
    | None => nodeAllocatable
    end in
  let nodeAllocatable :=
    match scalar !! BatchCPU with
    | Some batchCPU => mkBatchResource batchCPU (Memory nodeAllocatable)
    | None => nodeAllocatable
    end in
  let nodeAllocatable :=
    match scalar !! BatchMemory with
    | Some batchMemory => mkBatchResource (MilliCPU nodeAllocatable) batchMemory
    | None => nodeAllocatable
    end in
  nodeAllocatable.

Definition computeNodeBatchRequested (nodeInfo : NodeInfo) : batchResource :=
  let scalar := ScalarResources (Requested nodeInfo) in
  let nodeRequested := mkBatchResource 0 0 in
  let nodeRequested :=
    match scalar !! BatchCPU with
    | Some batchCPU =>
      mkBatchResource (Int64.add (MilliCPU nodeRequested) batchCPU)
                      (Memory nodeRequested)
    | None => nodeRequested
    end in
  let nodeRequested :=
    match scalar !! KoordBatchCPU with
    | Some koordBatchCPU =>
      mkBatchResource (Int64.add (MilliCPU nodeRequested) koordBatchCPU)
                      (Memory nodeRequested)
    | None => nodeRequested
    end in
  let nodeRequested :=
    match scalar !! BatchMemory with
    | Some batchMemory =>
      mkBatchResource (MilliCPU nodeRequested)
                      (Int64.add (Memory nodeRequested) batchMemory)
    | None => nodeRequested
    end in
  let nodeRequested :=
    match scalar !! KoordBatchMemory with
    | Some koordBatchMemory =>
      mkBatchResource (MilliCPU nodeRequested)
                      (Int64.add (Memory nodeRequested) koordBatchMemory)
    | None => nodeRequested
    end in
  nodeRequested.

Section Plugin.

Variable IsScalarResourceName : string → bool.

(** The [framework.Resource] that [computePodBatchRequest] builds before it
    reads the batch-tier names off it. *)
Definition podRequest (pod : Pod) : Resource :=
  let podRequest := mkResource ∅ in
  let podRequest :=
    fold_left (λ r container, Add IsScalarResourceName r (Requests container))
              (Containers pod) podRequest in
  let podRequest :=
    fold_left (λ r container,
                 SetMaxResource IsScalarResourceName r (Requests container))
              (InitContainers pod) podRequest in
  match Overhead pod with
  | Some overhead => Add IsScalarResourceName podRequest overhead
  | None => podRequest
  end.

Definition computePodBatchRequest (pod : Pod) : batchResource :=
  let scalar := ScalarResources (podRequest pod) in
  let result := mkBatchResource 0 0 in
  let result :=
    match scalar !! KoordBatchCPU with
    | Some koordBatchCPU => mkBatchResource koordBatchCPU (Memory result)
    | None => result
    end in
  let result :=
    match scalar !! KoordBatchMemory with
    | Some koordBatchMemory => mkBatchResource (MilliCPU result) koordBatchMemory
    | None => result
    end in
  let result :=
    match scalar !! BatchCPU with
    | Some batchCPU => mkBatchResource batchCPU (Memory result)
    | None => result
    end in
  let result :=
    match scalar !! BatchMemory with
    | Some batchMemory => mkBatchResource (MilliCPU result) batchMemory
    | None => result
    end in
  result.

Definition fitsRequest (pod : Pod) (nodeInfo : NodeInfo)
    : list NodeResources.InsufficientResource :=
  let podBatchRequest := computePodBatchRequest pod in
  if (MilliCPU podBatchRequest =? 0) && (Memory podBatchRequest =? 0) then []
  else
    let insufficientResources := [] in
    let nodeRequested := computeNodeBatchRequested nodeInfo in
    let nodeAllocatable := computeNodeBatchAllocatable nodeInfo in
    let insufficientResources :=
      if Int64.sub (MilliCPU nodeAllocatable) (MilliCPU nodeRequested)
         <? MilliCPU podBatchRequest
      then insufficientResources ++
           [NodeResources.mkInsufficientResource BatchCPU
              "Insufficient batch cpu" (MilliCPU podBatchRequest)
              (MilliCPU nodeRequested) (MilliCPU nodeAllocatable)]
      else insufficientResources in
    let insufficientResources :=
      if Int64.sub (Memory nodeAllocatable) (Memory nodeRequested)
         <? Memory podBatchRequest
      then insufficientResources ++
           [NodeResources.mkInsufficientResource BatchMemory
              "Insufficient batch memory" (Memory podBatchRequest)
              (Memory nodeRequested) (Memory nodeAllocatable)]
      else insufficientResources in
    insufficientResources.

Definition Filter (pod : Pod) (nodeInfo : NodeInfo) : Status :=
  let insufficientResources := fitsRequest pod nodeInfo in
  if negb (length insufficientResources =? 0)%nat
  then NewStatus Unschedulable
         (map NodeResources.Reason insufficientResources)
  else StatusNil.

End Plugin.

End BatchResource.

(** * Vocabulary of the specification *)

Module Spec.

(** The figure of a quantity the estimator works on: milli-units for cpu,
    whole units for every other resource. *)
Definition figure (resourceName : string) (q : Quantity) : Z :=
  if String.eqb resourceName ResourceCPU then MilliValue q else Value q.

(** The resource kinds with a default. *)
Definition cpuClass (resourceName : string) : Prop :=
  resourceName = ResourceCPU ∨ resourceName = BatchCPU.

Definition memoryClass (resourceName : string) : Prop :=
  resourceName = ResourceMemory ∨ resourceName = BatchMemory.

(** The longest expiration or reporting interval, in seconds, that a
    [time.Duration] holds. *)
Definition maxDurationSeconds : Z := 9223372036.

(** The inclusion rule of the assignment tracker: a record assigned at [ts]
    is not yet reflected in a snapshot updated at [T] with reporting interval
    [I] when it was assigned after [T], or before [T] by less than [I]. *)
Definition notYetReflected (T I : Z) (ts : Z) : Prop :=
  T < ts ∨ (ts < T ∧ T - ts < I).

#[global] Instance notYetReflected_dec T I ts : Decision (notYetReflected T I ts).
Proof. unfold notYetReflected. apply _. Defined.

(** The reporting interval a snapshot declares, in seconds, if it does. *)
Definition declaredIntervalSeconds (nodeMetric : LoadAware.NodeMetric)
    : option Z :=
  match LoadAware.CollectPolicy nodeMetric with
  | Some policy => LoadAware.ReportIntervalSeconds policy
  | None => None
  end.

(** The tracker with the records of one node replaced. *)
Definition withItems (p : LoadAware.Plugin) (nodeName : string)
    (items : list LoadAware.podAssignInfo) : LoadAware.Plugin :=
  LoadAware.mkPlugin (LoadAware.nodeInfos p) (LoadAware.args p)
    (LoadAware.nodeMetricLister p)
    (<[nodeName := items]> (LoadAware.podInfoItems p)).

Section Pending.

Variable PriorityClass : Type.
Variable PodRequestsAndLimits : Pod → gmap string Quantity * gmap string Quantity.
Variable GetPriorityClass : Pod → PriorityClass.
Variable TranslateResourceNameByPriorityClass : PriorityClass → string → string.

(** The summed estimates of a collection of assignment records. *)
Definition pendingSum (a : LoadAware.LoadAwareSchedulingArgs)
    (items : list LoadAware.podAssignInfo) (from : gmap string Z)
    : gmap string Z :=
  fold_left (λ acc x,
    LoadAware.addInto acc
      (LoadAware.estimatedPodUsed PriorityClass PodRequestsAndLimits
         GetPriorityClass TranslateResourceNameByPriorityClass
         (LoadAware.pod x) (LoadAware.ResourceWeights a)
         (LoadAware.EstimatedScalingFactors a)))
    items from.

End Pending.

(** The sum of the weights, and the weight-summed per-resource scores, as
    integers. *)
Definition weightTotal (weights : gmap string Z) : Z :=
  map_fold (λ _ weight acc, acc + weight) 0 weights.

Definition weightedScore (weights used allocatable : gmap string Z) : Z :=
  map_fold (λ resourceName weight acc,
    acc + LoadAware.leastRequestedScore (int64Of used resourceName)
                                        (int64Of allocatable resourceName)
          * weight) 0 weights.

(** The inputs the scorer is meant for: weights, usages and capacities that
    are not negative, the capacities small enough for their product with the
    maximal score to fit an [int64]. *)
Definition scorable (weights used allocatable : gmap string Z) : Prop :=
  map_Forall (λ resourceName weight,
    0 <= weight
    ∧ 0 <= int64Of used resourceName
    ∧ 0 <= int64Of allocatable resourceName
    ∧ int64Of allocatable resourceName * LoadAware.MaxNodeScore <= Int64.max)
    weights.

(** *** Batch-tier demand of a workload *)

(** The whole-unit requests for the resource [name] of those containers of
    a list that declare it. *)
Definition declaredValues (name : string) (containers : list Container)
    : list Z :=
  omap (λ container, Value <$> Requests container !! name) containers.

Definition overheadValue (name : string) (pod : Pod) : option Z :=
  match Overhead pod with
  | Some overhead => Value <$> overhead !! name
  | None => None
  end.

(** Whether any container, init container or the overhead of the pod
    declares the resource. *)
Definition declares (name : string) (pod : Pod) : bool :=
  match declaredValues name (Containers pod)
        ++ declaredValues name (InitContainers pod)
        ++ option_list (overheadValue name pod) with
  | [] => false
  | _ :: _ => true
  end.


(** *** Batch-tier admission *)

Definition cpuRecord (demand requested allocatable : BatchResource.batchResource)
    : NodeResources.InsufficientResource :=
  NodeResources.mkInsufficientResource BatchCPU "Insufficient batch cpu"
    (BatchResource.MilliCPU demand) (BatchResource.MilliCPU requested)
    (BatchResource.MilliCPU allocatable).

Definition memoryRecord (demand requested allocatable : BatchResource.batchResource)
    : NodeResources.InsufficientResource :=
  NodeResources.mkInsufficientResource BatchMemory "Insufficient batch memory"
    (BatchResource.Memory demand) (BatchResource.Memory requested)
    (BatchResource.Memory allocatable).

(** [requested_by_workload > allocatable - already_requested], the
    difference being the one of [int64]. *)
Definition cpuShort (demand requested allocatable : BatchResource.batchResource)
    : Prop :=
  Int64.sub (BatchResource.MilliCPU allocatable) (BatchResource.MilliCPU requested)
  < BatchResource.MilliCPU demand.

Definition memoryShort (demand requested allocatable : BatchResource.batchResource)
    : Prop :=
  Int64.sub (BatchResource.Memory allocatable) (BatchResource.Memory requested)
  < BatchResource.Memory demand.

#[global] Instance cpuShort_dec demand requested allocatable :
  Decision (cpuShort demand requested allocatable).
Proof. unfold cpuShort. apply _. Defined.

#[global] Instance memoryShort_dec demand requested allocatable :
  Decision (memoryShort demand requested allocatable).
Proof. unfold memoryShort. apply _. Defined.

(** *** Filtering on usage thresholds *)

(** Whether the expiration check of [Filter] fires on a snapshot. *)
Definition expirationGate (p : LoadAware.Plugin) (now : Z)
    (nodeMetric : LoadAware.NodeMetric) : bool :=
  match LoadAware.FilterExpiredNodeMetrics (LoadAware.args p),
        LoadAware.NodeMetricExpirationSeconds (LoadAware.args p) with
  | Some true, Some seconds =>
    LoadAware.isNodeMetricExpired now (Some nodeMetric) seconds
  | _, _ => false
  end.

(** The thresholds in force on a node: those of its annotation when it
    parses and is not empty, those of the configuration otherwise. *)
Definition effectiveThresholds (p : LoadAware.Plugin) (node : LoadAware.Node)
    : gmap string Z :=
  match LoadAware.CustomUsageThresholds node with
  | Some custom =>
    if 0 <? Z.of_nat (size custom) then custom
    else LoadAware.UsageThresholds (LoadAware.args p)
  | None => LoadAware.UsageThresholds (LoadAware.args p)
  end.

(** A resource whose reported usage, in percent of the allocatable, reaches
    its threshold; a zero threshold and a zero allocatable switch the check
    off. *)
Definition exceeds (usagePercent : Z → Z → Z) (node : LoadAware.Node)
    (info : LoadAware.NodeMetricInfo) (resourceName : string) (threshold : Z)
    : Prop :=
  threshold ≠ 0
  ∧ IsZero (quantityOf (LoadAware.Allocatable node) resourceName) = false
  ∧ threshold
    <= usagePercent
         (MilliValue (quantityOf (LoadAware.NodeUsage info) resourceName))
         (MilliValue (quantityOf (LoadAware.Allocatable node) resourceName)).

(** The sum of the weights as the scorer accumulates it, in [int64]. *)
Definition weightSum64 (weights : gmap string Z) : Z :=
  map_fold (λ _ weight acc, Int64.add acc weight) 0 weights.

(** *** Entries of the pending usage *)

Section PendingEntries.

Variable PriorityClass : Type.
Variable PodRequestsAndLimits : Pod → gmap string Quantity * gmap string Quantity.
Variable GetPriorityClass : Pod → PriorityClass.
Variable TranslateResourceNameByPriorityClass : PriorityClass → string → string.

(** The estimate of the workload of one assignment record on one weighted
    resource: the estimation rule on the requests and limits of the pod,
    under the name its priority class translates the resource to, with the
    scaling factor configured for the resource. *)
Definition recordEstimate (a : LoadAware.LoadAwareSchedulingArgs)
    (x : LoadAware.podAssignInfo) (resourceName : string) : Z :=
  LoadAware.estimatedUsedByResource
    (PodRequestsAndLimits (LoadAware.pod x)).1
    (PodRequestsAndLimits (LoadAware.pod x)).2
    (TranslateResourceNameByPriorityClass
       (GetPriorityClass (LoadAware.pod x)) resourceName)
    (int64Of (LoadAware.EstimatedScalingFactors a) resourceName).

(** The entry of the pending usage for a resource, given the records that
    are included: the [int64] sum of their estimates when the resource is
    weighted and some record is included, no entry otherwise. *)
Definition pendingEntry (a : LoadAware.LoadAwareSchedulingArgs)
    (included : list LoadAware.podAssignInfo) (resourceName : string)
    : option Z :=
  match LoadAware.ResourceWeights a !! resourceName, included with
  | Some _, _ :: _ =>
    Some (fold_left (λ sum x, Int64.add sum (recordEstimate a x resourceName))
                    included 0)
  | _, _ => None
  end.

End PendingEntries.

(** The products on which the floating-point rounding of the estimator is
    exact, so that [LoadAware.roundScaled] is what the source computes. *)
Definition roundsExactly (v scalingFactor : Z) : Prop :=
  Z.abs (v * scalingFactor) < 2 ^ 53.

End Spec.

(** * Sample collaborators and data

    Concrete stand-ins for the collaborators the plugins do not own, and a
    few pods, nodes and snapshots, on which the statements below are run. *)

Module Sample.

(** Requests and limits of a pod with a single container. *)
Definition requestsAndLimits (pod : Pod)
    : gmap string Quantity * gmap string Quantity :=
  match Containers pod with
  | c :: _ => (Requests c, Limits c)
  | [] => (∅, ∅)
  end.

Definition priorityClass (pod : Pod) : unit := tt.
Definition translate (pc : unit) (resourceName : string) : string := resourceName.

(** A name with a slash is taken for a scalar resource. *)
Definition isScalar (name : string) : bool :=
  match String.index 0 "/" name with
  | Some _ => true
  | None => false
  end.

(** One container asking for 500 milli-cpu and 100 units of memory, limited
    to the same. *)
Definition webPod : Pod :=
  mkPod [mkContainer {[ ResourceCPU := mkQuantity 500;
                        ResourceMemory := units 100 ]}
                     {[ ResourceCPU := mkQuantity 500;
                        ResourceMemory := units 100 ]}]
        [] None.

Definition weights : gmap string Z := {[ ResourceCPU := 1; ResourceMemory := 1 ]}.
Definition factors : gmap string Z := {[ ResourceCPU := 85; ResourceMemory := 70 ]}.

Definition loadAwareArgs : LoadAware.LoadAwareSchedulingArgs :=
  LoadAware.mkArgs None (Some 180) weights ∅ factors.

(** The update time of the sample snapshot, which declares no interval. *)
Definition T : Z := 1000 * LoadAware.Second.

Definition snapshot : LoadAware.NodeMetric :=
  LoadAware.mkNodeMetric None (Some T) None.

Definition halfIntervalBefore : LoadAware.podAssignInfo :=
  LoadAware.mkAssignInfo (T - 30 * LoadAware.Second) webPod.
Definition twoIntervalsBefore : LoadAware.podAssignInfo :=
  LoadAware.mkAssignInfo (T - 120 * LoadAware.Second) webPod.
Definition oneSecondAfter : LoadAware.podAssignInfo :=
  LoadAware.mkAssignInfo (T + 1 * LoadAware.Second) webPod.
Definition atUpdateTime : LoadAware.podAssignInfo :=
  LoadAware.mkAssignInfo T webPod.

Definition plugin (items : list LoadAware.podAssignInfo) : LoadAware.Plugin :=
  LoadAware.mkPlugin (λ _, LoadAware.NotFound) loadAwareArgs
    (λ _, LoadAware.NotFound) {[ "node-1" := items ]}.

(** A node that declares its batch cpu under the legacy name only. *)
Definition legacyOnlyNode : Framework.NodeInfo :=
  Framework.mkNodeInfo (Framework.mkResource ∅)
    (Framework.mkResource {[ KoordBatchCPU := 500 ]}).

(** A node in the middle of an upgrade: both names allocatable, and
    requests accounted under both. *)
Definition mixedNode : Framework.NodeInfo :=
  Framework.mkNodeInfo
    (Framework.mkResource {[ BatchCPU := 600; KoordBatchCPU := 200;
                             BatchMemory := 1024 ]})
    (Framework.mkResource {[ BatchCPU := 1000; KoordBatchCPU := 500;
                             BatchMemory := 4096; KoordBatchMemory := 2048 ]}).

(** A batch pod: two containers and an init container asking for batch cpu
    (in milli-cores) and batch memory, and an overhead. *)
Definition batchPod (cpu : Z) : Pod :=
  mkPod [mkContainer {[ BatchCPU := units cpu; BatchMemory := units 512 ]} ∅;
         mkContainer {[ BatchCPU := units 50 ]} ∅]
        [mkContainer {[ BatchCPU := units 120; BatchMemory := units 2048 ]} ∅]
        (Some {[ BatchCPU := units 10 ]}).

(** A stand-in for the usage percentage of [Filter], rounding on integers.
    The source rounds a floating-point quotient, which can fall one below
    this at an exact half; the samples below avoid such inputs. *)
Definition percent (used total : Z) : Z := (200 * used + total) / (2 * total).

Definition node : LoadAware.Node :=
  LoadAware.mkNode "node-1"
    {[ ResourceCPU := mkQuantity 1000; ResourceMemory := units 64 ]} None.

(** A plugin whose node lister knows [node], with the expiration set to 180
    seconds, the filter's expiration gate as [gate] says, and the metric
    lister answering [metric] for every node. *)
Definition scoringPlugin (gate : option bool)
    (metric : LoadAware.Lookup LoadAware.NodeMetric) : LoadAware.Plugin :=
  LoadAware.mkPlugin (λ _, LoadAware.Found (Some node))
    (LoadAware.mkArgs gate (Some 180) weights ∅ factors)
    (λ _, metric) ∅.



(** Thresholds of 65 percent on cpu and 95 percent on memory. *)
Definition thresholds : gmap string Z :=
  {[ ResourceCPU := 65; ResourceMemory := 95 ]}.

(** A plugin with those thresholds, an expiration of 180 seconds with the
    gate on, and the metric lister answering [metric]. *)
Definition thresholdPlugin (metric : LoadAware.Lookup LoadAware.NodeMetric)
    : LoadAware.Plugin :=
  LoadAware.mkPlugin (λ _, LoadAware.Found (Some node))
    (LoadAware.mkArgs (Some true) (Some 180) weights thresholds factors)
    (λ _, metric) ∅.

(** Fresh snapshots of [node]: one busy on cpu (70 percent), one idle. *)
Definition busyUsage : LoadAware.NodeMetricInfo :=
  LoadAware.mkNodeMetricInfo
    {[ ResourceCPU := mkQuantity 700; ResourceMemory := units 32 ]}.

Definition idleUsage : LoadAware.NodeMetricInfo :=
  LoadAware.mkNodeMetricInfo
    {[ ResourceCPU := mkQuantity 100; ResourceMemory := units 8 ]}.

Definition freshSnapshot (usage : LoadAware.NodeMetricInfo)
    : LoadAware.NodeMetric :=
  LoadAware.mkNodeMetric None (Some T) (Some usage).

(** A little after the sample update time. *)
Definition soon : Z := T + 10 * LoadAware.Second.

End Sample.

(** * Properties *)

(** ** Facts on 64-bit arithmetic *)

Section Int64Facts.

Import Int64.

Lemma wrap_in_range z : in_range (wrap z).
Proof.
  unfold in_range, wrap, min, max.
  pose proof (Z.mod_pos_bound (z + 2 ^ 63) (2 ^ 64) ltac:(lia)). lia.
Qed.

Lemma wrap_small z : in_range z → wrap z = z.
Proof.
  unfold in_range, wrap, min, max. intros Hz.
  rewrite Z.mod_small by lia. lia.
Qed.

Lemma wrap_wrap_add_l a b : wrap (wrap a + b) = wrap (a + b).
Proof.
  unfold wrap.
  replace ((a + 2 ^ 63) mod 2 ^ 64 - 2 ^ 63 + b + 2 ^ 63)
    with ((a + 2 ^ 63) mod 2 ^ 64 + b) by lia.
  rewrite Zplus_mod_idemp_l. f_equal. f_equal. lia.
Qed.

Lemma wrap_wrap_add_r a b : wrap (a + wrap b) = wrap (a + b).
Proof. rewrite Z.add_comm, wrap_wrap_add_l. f_equal. lia. Qed.

Lemma wrap_idemp z : wrap (wrap z) = wrap z.
Proof. apply wrap_small, wrap_in_range. Qed.

Lemma add_small a b : in_range (a + b) → add a b = a + b.
Proof. apply wrap_small. Qed.


Lemma sub_small a b : in_range (a - b) → sub a b = a - b.
Proof. apply wrap_small. Qed.

Lemma mul_small a b : in_range (a * b) → mul a b = a * b.
Proof. apply wrap_small. Qed.

Lemma quot_small a b : in_range (a ÷ b) → quot a b = a ÷ b.
Proof. apply wrap_small. Qed.


End Int64Facts.

(** ** The resource estimator *)

Section EstimatorFacts.

Import LoadAware Spec.

Lemma IsZero_quantityOf_absent (rl : gmap string Quantity) name :
  rl !! name = None → IsZero (quantityOf rl name) = true.
Proof. intros H. unfold quantityOf. rewrite H. reflexivity. Qed.

Lemma IsZero_milliUnits q : IsZero q = true ↔ milliUnits q = 0.
Proof. unfold IsZero. apply Z.eqb_eq. Qed.

Lemma Cmp_pos q r : (0 <? Cmp q r) = true ↔ milliUnits r < milliUnits q.
Proof.
  unfold Cmp. destruct (Z.compare_spec (milliUnits q) (milliUnits r));
    rewrite Z.ltb_lt; lia.
Qed.

(** Scaling by 100 percent changes nothing. *)
Lemma roundScaled_100 v : roundScaled v 100 = v.
Proof.
  unfold roundScaled. destruct (Z.leb_spec 0 (v * 100)).
  - replace (v * 100 + 50) with (50 + v * 100) by lia.
    rewrite Z.div_add by lia. reflexivity.
  - replace (- (v * 100) + 50) with (50 + (- v) * 100) by lia.
    rewrite Z.div_add by lia. change (50 / 100) with 0. lia.
Qed.

(** [roundScaled] is the integer nearest to [v * scalingFactor / 100]. *)
Lemma roundScaled_nearest v scalingFactor :
  Z.abs (100 * roundScaled v scalingFactor - v * scalingFactor) <= 50.
Proof.
  unfold roundScaled. destruct (Z.leb_spec 0 (v * scalingFactor)).
  - pose proof (Z.div_mod (v * scalingFactor + 50) 100 ltac:(lia)).
    pose proof (Z.mod_pos_bound (v * scalingFactor + 50) 100 ltac:(lia)). lia.
  - pose proof (Z.div_mod (- (v * scalingFactor) + 50) 100 ltac:(lia)).
    pose proof (Z.mod_pos_bound (- (v * scalingFactor) + 50) 100 ltac:(lia)).
    lia.
Qed.

(** Step 3 of the estimator, first case: a limit above the request is the
    estimate, whatever the scaling factor. *)
Lemma estimatedUsedByResource_limit_above_request
    (requests limits : gmap string Quantity) resourceName scalingFactor :
  milliUnits (quantityOf requests resourceName)
    < milliUnits (quantityOf limits resourceName) →
  IsZero (quantityOf limits resourceName) = false →
  estimatedUsedByResource requests limits resourceName scalingFactor
  = figure resourceName (quantityOf limits resourceName).
Proof.
  intros Hlt Hnz. unfold estimatedUsedByResource, figure.
  apply Cmp_pos in Hlt. rewrite Hlt, Hnz.
  destruct (String.eqb resourceName ResourceCPU);
    rewrite roundScaled_100, Z.ltb_irrefl; reflexivity.
Qed.

(** Step 3, second case: otherwise the request is scaled and rounded, and
    the result is cut down to the figure of the limit, which is [0] for a
    limit that is not declared: the source compares with [limits[name]]
    without asking whether the limit exists. *)
Lemma estimatedUsedByResource_scaled_request
    (requests limits : gmap string Quantity) resourceName scalingFactor :
  milliUnits (quantityOf limits resourceName)
    <= milliUnits (quantityOf requests resourceName) →
  IsZero (quantityOf requests resourceName) = false →
  estimatedUsedByResource requests limits resourceName scalingFactor
  = Z.min (roundScaled (figure resourceName (quantityOf requests resourceName))
                       scalingFactor)
          (figure resourceName (quantityOf limits resourceName)).
Proof.
  intros Hle Hnz. unfold estimatedUsedByResource, figure.
  destruct (0 <? Cmp _ _) eqn:Hc; [apply Cmp_pos in Hc; lia|].
  rewrite Hnz.
  destruct (String.eqb resourceName ResourceCPU);
    match goal with |- context [?a <? ?b] => destruct (Z.ltb_spec a b) end; lia.
Qed.

(** C1 (the estimation rule).  A workload that declares a request of 100
    and no limit, under a scaling factor of 50 percent, is estimated at 0:
    the scaled request, 50, is cut down to the value of the absent limit.
    The rule asks for 50, the clamp applying only when a limit exists. *)
Theorem estimatedUsedByResource_request_without_limit :
  let requests : gmap string Quantity := {[ ResourceMemory := units 100 ]} in
  let limits : gmap string Quantity := ∅ in
  limits !! ResourceMemory = None
  ∧ roundScaled (Value (quantityOf requests ResourceMemory)) 50 = 50
  ∧ estimatedUsedByResource requests limits ResourceMemory 50 = 0.
Proof. vm_compute. repeat split; reflexivity. Qed.

(** The same on cpu, and set against the default that a workload with no
    request at all receives. *)
Lemma estimatedUsedByResource_cpu_request_alone :
  estimatedUsedByResource {[ ResourceCPU := mkQuantity 100 ]} ∅ ResourceCPU 50 = 0
  ∧ estimatedUsedByResource ∅ ∅ ResourceCPU 50 = 250.
Proof. vm_compute. split; reflexivity. Qed.

(** With a declared limit the same request is estimated as the rule says. *)
Lemma estimatedUsedByResource_examples :
  estimatedUsedByResource {[ ResourceMemory := units 100 ]}
      {[ ResourceMemory := units 100 ]} ResourceMemory 33 = 33
  ∧ estimatedUsedByResource {[ ResourceMemory := units 50 ]}
      {[ ResourceMemory := units 150 ]} ResourceMemory 7 = 150
  ∧ estimatedUsedByResource {[ ResourceMemory := units 100 ]}
      {[ ResourceMemory := units 200 ]} ResourceMemory 50 = 200.
Proof. vm_compute. repeat split; reflexivity. Qed.

(** C7 (zero-quantity fallback).  When the request and the limit of a
    resource are both zero or absent, the estimate is 250 for cpu and batch
    cpu, 200 * 1024 * 1024 for memory and batch memory, and 0 for every
    other resource, whatever the scaling factor. *)
Theorem estimatedUsedByResource_zero_default
    (requests limits : gmap string Quantity) resourceName scalingFactor :
  IsZero (quantityOf requests resourceName) = true →
  IsZero (quantityOf limits resourceName) = true →
  (cpuClass resourceName →
     estimatedUsedByResource requests limits resourceName scalingFactor = 250)
  ∧ (memoryClass resourceName →
     estimatedUsedByResource requests limits resourceName scalingFactor
     = 200 * 1024 * 1024)
  ∧ (¬ cpuClass resourceName → ¬ memoryClass resourceName →
     estimatedUsedByResource requests limits resourceName scalingFactor = 0).
Proof.
  intros Hr Hl. unfold estimatedUsedByResource.
  apply IsZero_milliUnits in Hl as Hl'. apply IsZero_milliUnits in Hr as Hr'.
  destruct (0 <? Cmp _ _) eqn:Hc; [apply Cmp_pos in Hc; lia|].
  rewrite Hr. unfold cpuClass, memoryClass.
  destruct (String.eqb_spec resourceName ResourceCPU) as [->|Hcpu];
    [vm_compute; intuition congruence|].
  destruct (String.eqb_spec resourceName BatchCPU) as [->|Hbcpu];
    [vm_compute; intuition congruence|].
  destruct (String.eqb_spec resourceName ResourceMemory) as [->|Hmem];
    [vm_compute; intuition congruence|].
  destruct (String.eqb_spec resourceName BatchMemory) as [->|Hbmem];
    [vm_compute; intuition congruence|].
  simpl. intuition congruence.
Qed.

Lemma estimatedUsedByResource_zero_default_witness :
  estimatedUsedByResource ∅ ∅ ResourceCPU 85 = 250
  ∧ estimatedUsedByResource ∅ {[ BatchMemory := zeroQuantity ]} BatchMemory 70
    = 200 * 1024 * 1024
  ∧ estimatedUsedByResource ∅ ∅ ResourcePods 70 = 0.
Proof.
  split; [|split].
  - apply (estimatedUsedByResource_zero_default ∅ ∅ ResourceCPU 85);
      [reflexivity | reflexivity | left; reflexivity].
  - apply (estimatedUsedByResource_zero_default
             ∅ {[ BatchMemory := zeroQuantity ]} BatchMemory 70);
      [reflexivity | reflexivity | right; reflexivity].
  - apply (estimatedUsedByResource_zero_default ∅ ∅ ResourcePods 70);
      [reflexivity | reflexivity | |];
      intros [H|H]; discriminate H.
Defined.

End EstimatorFacts.

(** ** Expiration of a snapshot *)

Section ExpirationFacts.

Import LoadAware Spec.

Lemma secondsToDuration_in_range seconds :
  Int64.in_range (secondsToDuration seconds).
Proof. apply wrap_in_range. Qed.

(** Up to 9223372036 seconds the conversion to a duration is exact. *)
Lemma secondsToDuration_exact seconds :
  - maxDurationSeconds <= seconds <= maxDurationSeconds →
  secondsToDuration seconds = seconds * Second.
Proof.
  intros H. apply wrap_small.
  unfold Int64.in_range, Int64.min, Int64.max, Second, maxDurationSeconds in *.
  lia.
Qed.

(** Saturation of [Sub] is invisible to a comparison with a duration above
    the smallest one. *)
Lemma le_Sub d t u :
  Int64.min < d → Int64.in_range d → (d <= Sub t u ↔ d <= t - u).
Proof. unfold Sub, Int64.in_range. lia. Qed.

Lemma Sub_lt d t u :
  u < t → Int64.in_range d → (Sub t u < d ↔ t - u < d).
Proof. unfold Sub, Int64.in_range, Int64.min, Int64.max. lia. Qed.

(** C9 (expiration).  A snapshot is expired exactly when it is absent, or
    has no update time, or the expiration is positive and the time elapsed
    since the update is at least the expiration, both taken as durations.  It
    is not expired when the expiration is zero or negative and the update
    time is known, however old.  For an expiration that a duration holds (up
    to 9223372036 seconds), the comparison is the one of the integers: the
    elapsed nanoseconds against the expiration in nanoseconds. *)
Theorem isNodeMetricExpired_iff now (nodeMetric : option NodeMetric) seconds :
  (isNodeMetricExpired now nodeMetric seconds = true ↔
     nodeMetric = None
     ∨ (∃ nm, nodeMetric = Some nm ∧ UpdateTime nm = None)
     ∨ (0 < seconds
        ∧ ∃ nm t, nodeMetric = Some nm ∧ UpdateTime nm = Some t
                  ∧ secondsToDuration seconds <= Sub now t))
  ∧ (∀ nm t, nodeMetric = Some nm → UpdateTime nm = Some t →
       seconds <= 0 → isNodeMetricExpired now nodeMetric seconds = false)
  ∧ (∀ nm t, nodeMetric = Some nm → UpdateTime nm = Some t →
       0 < seconds <= maxDurationSeconds →
       (isNodeMetricExpired now nodeMetric seconds = true
        ↔ seconds * Second <= now - t)).
Proof.
  split; [|split].
  - unfold isNodeMetricExpired. destruct nodeMetric as [nm|]; [|tauto].
    destruct (UpdateTime nm) as [t|] eqn:Ht.
    + rewrite andb_true_iff, Z.ltb_lt, Z.leb_le. split.
      * intros [? ?]. right. right. split; [assumption|].
        exists nm, t. auto.
      * intros [H|[(nm' & H & Hn)|(Hpos & nm' & t' & H & Ht' & Hle)]].
        -- discriminate H.
        -- injection H as <-. congruence.
        -- injection H as <-. rewrite Ht in Ht'. injection Ht' as <-. auto.
    + split; [|reflexivity]. intros _. right. left. exists nm. auto.
  - intros nm t -> Ht Hle. unfold isNodeMetricExpired. rewrite Ht.
    destruct (Z.ltb_spec 0 seconds); [lia|reflexivity].
  - intros nm t -> Ht Hs. unfold isNodeMetricExpired. rewrite Ht.
    rewrite andb_true_iff, Z.ltb_lt, Z.leb_le.
    rewrite secondsToDuration_exact
      by (unfold maxDurationSeconds in *; lia).
    rewrite le_Sub.
    + tauto.
    + unfold Int64.min, Second. lia.
    + unfold Int64.in_range, Int64.min, Int64.max, Second,
        maxDurationSeconds in *. lia.
Qed.

(** A snapshot updated 200 s ago: expired at 180 s, not at 300 s, and
    never with the expiration switched off. *)
Lemma isNodeMetricExpired_iff_witness :
  let nm := mkNodeMetric None (Some (1000 * Second)) None in
  isNodeMetricExpired (1200 * Second) (Some nm) 180 = true
  ∧ isNodeMetricExpired (1200 * Second) (Some nm) 300 = false
  ∧ isNodeMetricExpired (1200 * Second) (Some nm) 0 = false.
Proof.
  intros nm.
  destruct (isNodeMetricExpired_iff (1200 * Second) (Some nm) 180)
    as (_ & _ & H180).
  destruct (isNodeMetricExpired_iff (1200 * Second) (Some nm) 300)
    as (_ & _ & H300).
  destruct (isNodeMetricExpired_iff (1200 * Second) (Some nm) 0)
    as (_ & H0 & _).
  split; [|split].
  - apply (H180 nm (1000 * Second) eq_refl eq_refl);
      unfold maxDurationSeconds, Second; lia.
  - apply not_true_is_false. intros E.
    apply (H300 nm (1000 * Second) eq_refl eq_refl) in E;
      unfold maxDurationSeconds, Second in *; lia.
  - apply (H0 nm (1000 * Second) eq_refl eq_refl). lia.
Defined.

End ExpirationFacts.

(** ** Assignments not yet reflected in a snapshot *)

Section PendingFacts.

Import LoadAware Spec.

Context (PriorityClass : Type)
        (PodRequestsAndLimits : Pod → gmap string Quantity * gmap string Quantity)
        (GetPriorityClass : Pod → PriorityClass)
        (TranslateResourceNameByPriorityClass : PriorityClass → string → string).

Local Abbreviation assignedLoop :=
  (assignedLoop PriorityClass PodRequestsAndLimits GetPriorityClass
                TranslateResourceNameByPriorityClass).
Local Abbreviation estimatedAssignedPodUsage :=
  (estimatedAssignedPodUsage PriorityClass PodRequestsAndLimits GetPriorityClass
                             TranslateResourceNameByPriorityClass).
Local Abbreviation pendingSum :=
  (pendingSum PriorityClass PodRequestsAndLimits GetPriorityClass
              TranslateResourceNameByPriorityClass).

(** The condition of the loop is the inclusion rule. *)
Lemma loop_condition_notYetReflected T I ts :
  Int64.in_range I →
  After ts T || Before ts T && (Sub T ts <? I) = true ↔ notYetReflected T I ts.
Proof.
  intros HI. unfold After, Before, notYetReflected.
  rewrite orb_true_iff, andb_true_iff, !Z.ltb_lt.
  split.
  - intros [H|[H1 H2]]; [left; assumption|right].
    split; [assumption|]. apply Sub_lt in H2; assumption.
  - intros [H|[H1 H2]]; [left; assumption|right].
    split; [assumption|]. apply Sub_lt; assumption.
Qed.

Lemma getNodeMetricReportInterval_in_range nodeMetric :
  Int64.in_range (getNodeMetricReportInterval nodeMetric).
Proof.
  unfold getNodeMetricReportInterval.
  destruct (CollectPolicy nodeMetric) as [policy|];
    [destruct (ReportIntervalSeconds policy)|];
    try apply secondsToDuration_in_range;
    unfold Int64.in_range, Int64.min, Int64.max,
      DefaultNodeMetricReportInterval, Second; lia.
Qed.

(** The loop sums the estimates of exactly the records the rule includes. *)
Lemma assignedLoop_filter a T I items estimatedUsed :
  Int64.in_range I →
  assignedLoop a (Some T) I items estimatedUsed
  = Some (pendingSum a
            (filter (λ x, notYetReflected T I (timestamp x)) items)
            estimatedUsed).
Proof.
  intros HI. revert estimatedUsed.
  induction items as [|x rest IH]; intros estimatedUsed; [reflexivity|].
  cbn [LoadAware.assignedLoop]. rewrite filter_cons.
  pose proof (loop_condition_notYetReflected T I (timestamp x) HI) as Hc.
  destruct (decide (notYetReflected T I (timestamp x))) as [Hin|Hout].
  - apply Hc in Hin. rewrite Hin, IH. reflexivity.
  - destruct (After (timestamp x) T
              || Before (timestamp x) T && (Sub T (timestamp x) <? I)) eqn:E.
    + exfalso. apply Hout, Hc. reflexivity.
    + apply IH.
Qed.

Local Abbreviation recordEstimate :=
  (recordEstimate PriorityClass PodRequestsAndLimits GetPriorityClass
                  TranslateResourceNameByPriorityClass).
Local Abbreviation pendingEntry :=
  (pendingEntry PriorityClass PodRequestsAndLimits GetPriorityClass
                TranslateResourceNameByPriorityClass).

(** What the accumulation loop leaves under a name. *)
Lemma addInto_entry (into from : gmap string Z) resourceName :
  addInto into from !! resourceName
  = match from !! resourceName with
    | Some value => Some (Int64.add (int64Of into resourceName) value)
    | None => into !! resourceName
    end.
Proof.
  unfold addInto.
  apply (map_fold_weak_ind (λ acc (m : gmap string Z),
    acc !! resourceName
    = match m !! resourceName with
      | Some value => Some (Int64.add (int64Of into resourceName) value)
      | None => into !! resourceName
      end)); [rewrite lookup_empty; reflexivity|].
  intros i v m acc Hfresh IH.
  destruct (decide (i = resourceName)) as [->|Hne].
  - rewrite !lookup_insert_eq. rewrite Hfresh in IH.
    unfold int64Of. rewrite IH. reflexivity.
  - rewrite !lookup_insert_ne by assumption. exact IH.
Qed.

(** Adding the estimate of one record: on a weighted resource the entry
    grows by the estimate of the record, the other entries stay. *)
Lemma addInto_estimate a x (acc : gmap string Z) resourceName :
  addInto acc
    (LoadAware.estimatedPodUsed PriorityClass PodRequestsAndLimits
       GetPriorityClass TranslateResourceNameByPriorityClass (pod x)
       (ResourceWeights a) (EstimatedScalingFactors a)) !! resourceName
  = match ResourceWeights a !! resourceName with
    | Some _ =>
      Some (Int64.add (int64Of acc resourceName)
                      (recordEstimate a x resourceName))
    | None => acc !! resourceName
    end.
Proof.
  rewrite addInto_entry. unfold LoadAware.estimatedPodUsed, Spec.recordEstimate.
  destruct (PodRequestsAndLimits (pod x)) as [requests limits].
  rewrite map_lookup_imap.
  destruct (ResourceWeights a !! resourceName); reflexivity.
Qed.

(** The entries of a sum of estimates started from [from]. *)
Lemma pendingSum_lookup a (items : list podAssignInfo) (from : gmap string Z)
    resourceName :
  pendingSum a items from !! resourceName
  = match ResourceWeights a !! resourceName, items with
    | Some _, _ :: _ =>
      Some (fold_left
              (λ sum x, Int64.add sum (recordEstimate a x resourceName))
              items (int64Of from resourceName))
    | _, _ => from !! resourceName
    end.
Proof.
  revert from. induction items as [|x rest IH]; intros from.
  { cbn. destruct (ResourceWeights a !! resourceName); reflexivity. }
  unfold Spec.pendingSum in *. cbn [fold_left]. rewrite IH.
  pose proof (addInto_estimate a x from resourceName) as Hx.
  unfold int64Of at 1. rewrite Hx.
  destruct (ResourceWeights a !! resourceName); [|reflexivity].
  destruct rest; reflexivity.
Qed.

(** C2 (inclusion rule).  With a snapshot updated at [T], the pending usage
    of a node holds, for each weighted resource, the sum of the estimates of
    exactly those of its tracked assignments whose time is after [T], or
    before [T] by less than the reporting interval, and no entry when there
    is no such assignment; the interval is the declared one when the
    snapshot declares one (exactly so up to 9223372036 seconds, the most a
    duration holds) and 60 seconds otherwise. *)
Theorem estimatedAssignedPodUsage_inclusion p nodeName nodeMetric T :
  UpdateTime nodeMetric = Some T →
  let interval :=
    match declaredIntervalSeconds nodeMetric with
    | Some seconds => secondsToDuration seconds
    | None => 60 * Second
    end in
  let included :=
    filter (λ x, notYetReflected T interval (timestamp x))
           (default [] (podInfoItems p !! nodeName)) in
  getNodeMetricReportInterval nodeMetric = interval
  ∧ (∀ seconds, declaredIntervalSeconds nodeMetric = Some seconds →
       - maxDurationSeconds <= seconds <= maxDurationSeconds →
       interval = seconds * Second)
  ∧ ∃ pending,
      estimatedAssignedPodUsage p nodeName nodeMetric = Some pending
      ∧ ∀ resourceName,
          pending !! resourceName = pendingEntry (args p) included resourceName.
Proof.
  intros HT interval included.
  assert (getNodeMetricReportInterval nodeMetric = interval) as Hi.
  { unfold getNodeMetricReportInterval, interval, declaredIntervalSeconds.
    destruct (CollectPolicy nodeMetric) as [policy|];
      [destruct (ReportIntervalSeconds policy)|]; reflexivity. }
  split; [assumption|]. split.
  - intros seconds Hdeclared Hfits. unfold interval. rewrite Hdeclared.
    apply secondsToDuration_exact, Hfits.
  - exists (pendingSum (args p) included ∅). split.
    + unfold LoadAware.estimatedAssignedPodUsage. rewrite HT, Hi.
      apply assignedLoop_filter. rewrite <- Hi.
      apply getNodeMetricReportInterval_in_range.
    + intros resourceName. rewrite pendingSum_lookup.
      unfold Spec.pendingEntry, int64Of. rewrite lookup_empty.
      destruct (ResourceWeights (args p) !! resourceName); [|reflexivity].
      destruct included; reflexivity.
Qed.

(** C10 (a record assigned exactly at the update time).  A tracked
    assignment whose time equals the update time of the snapshot takes no
    part in the pending usage: the result is the one of the tracker without
    that record, whatever the reporting interval. *)
Theorem estimatedAssignedPodUsage_at_update_time
    p nodeName nodeMetric T before x after :
  UpdateTime nodeMetric = Some T →
  podInfoItems p !! nodeName = Some (before ++ x :: after) →
  timestamp x = T →
  estimatedAssignedPodUsage p nodeName nodeMetric
  = estimatedAssignedPodUsage (withItems p nodeName (before ++ after))
                              nodeName nodeMetric.
Proof.
  intros HT Hitems Hx.
  unfold LoadAware.estimatedAssignedPodUsage, withItems. cbn [podInfoItems args].
  rewrite Hitems, lookup_insert_eq, HT. cbn [default].
  rewrite !assignedLoop_filter by apply getNodeMetricReportInterval_in_range.
  unfold id. rewrite !filter_app, filter_cons.
  destruct (decide (notYetReflected T _ (timestamp x))) as [Hin|Hout];
    [|reflexivity].
  unfold notYetReflected in Hin. lia.
Qed.

End PendingFacts.

(** The boundary cases: of three records assigned half an interval
    before, two intervals before and one second after the update, the first
    and the last are summed.  Each is estimated at 425 milli-cpu (500 at 85
    percent) and 70 of memory (100 at 70 percent): 850 and 140 are pending,
    and nothing on a resource without weight. *)
Lemma estimatedAssignedPodUsage_inclusion_witness :
  ∃ pending,
    LoadAware.estimatedAssignedPodUsage unit Sample.requestsAndLimits
      Sample.priorityClass Sample.translate
      (Sample.plugin [Sample.halfIntervalBefore; Sample.twoIntervalsBefore;
                      Sample.oneSecondAfter])
      "node-1" Sample.snapshot = Some pending
    ∧ pending !! ResourceCPU = Some 850
    ∧ pending !! ResourceMemory = Some 140
    ∧ pending !! ResourcePods = None.
Proof.
  destruct (estimatedAssignedPodUsage_inclusion unit Sample.requestsAndLimits
              Sample.priorityClass Sample.translate
              (Sample.plugin [Sample.halfIntervalBefore;
                              Sample.twoIntervalsBefore; Sample.oneSecondAfter])
              "node-1" Sample.snapshot Sample.T eq_refl)
    as (_ & _ & pending & Hpending & Hentries).
  exists pending. split; [exact Hpending|].
  rewrite !Hentries. vm_compute. repeat split; reflexivity.
Defined.

Lemma estimatedAssignedPodUsage_at_update_time_witness :
  LoadAware.estimatedAssignedPodUsage unit Sample.requestsAndLimits
    Sample.priorityClass Sample.translate
    (Sample.plugin [Sample.halfIntervalBefore; Sample.atUpdateTime;
                    Sample.oneSecondAfter])
    "node-1" Sample.snapshot
  = LoadAware.estimatedAssignedPodUsage unit Sample.requestsAndLimits
      Sample.priorityClass Sample.translate
      (Spec.withItems
         (Sample.plugin [Sample.halfIntervalBefore; Sample.atUpdateTime;
                         Sample.oneSecondAfter])
         "node-1" [Sample.halfIntervalBefore; Sample.oneSecondAfter])
      "node-1" Sample.snapshot.
Proof.
  apply (estimatedAssignedPodUsage_at_update_time unit Sample.requestsAndLimits
           Sample.priorityClass Sample.translate _ "node-1" Sample.snapshot
           Sample.T [Sample.halfIntervalBefore] Sample.atUpdateTime
           [Sample.oneSecondAfter]); reflexivity.
Defined.

(** ** The node scorer *)

Section ScorerFacts.

Import LoadAware Spec.

Lemma leastRequestedScore_no_capacity requested :
  leastRequestedScore requested 0 = 0.
Proof. reflexivity. Qed.

Lemma leastRequestedScore_over_capacity requested capacity :
  capacity < requested → leastRequestedScore requested capacity = 0.
Proof.
  intros H. unfold leastRequestedScore.
  destruct (capacity =? 0); [reflexivity|].
  destruct (Z.ltb_spec capacity requested); [reflexivity|lia].
Qed.

Lemma leastRequestedScore_formula requested capacity :
  0 < capacity → 0 <= requested <= capacity →
  capacity * MaxNodeScore <= Int64.max →
  leastRequestedScore requested capacity
  = ((capacity - requested) * MaxNodeScore) ÷ capacity.
Proof.
  intros Hc Hr Hmax. unfold leastRequestedScore, MaxNodeScore in *.
  destruct (Z.eqb_spec capacity 0); [lia|].
  destruct (Z.ltb_spec capacity requested); [lia|].
  assert (Int64.min <= 0) by (unfold Int64.min; lia).
  rewrite sub_small by (unfold Int64.in_range; lia).
  rewrite mul_small by (unfold Int64.in_range; nia).
  apply quot_small. unfold Int64.in_range.
  rewrite Z.quot_div_nonneg by nia.
  pose proof (Z.div_pos ((capacity - requested) * 100) capacity
                ltac:(nia) ltac:(lia)).
  assert ((capacity - requested) * 100 / capacity <= 100)
    by (apply Z.div_le_upper_bound; nia).
  unfold Int64.max in *. lia.
Qed.

Lemma leastRequestedScore_bounds requested capacity :
  0 <= requested → 0 <= capacity →
  capacity * MaxNodeScore <= Int64.max →
  0 <= leastRequestedScore requested capacity <= MaxNodeScore.
Proof.
  intros Hr Hc Hmax.
  destruct (Z.eq_dec capacity 0) as [->|Hne].
  { rewrite leastRequestedScore_no_capacity. unfold MaxNodeScore. lia. }
  destruct (Z.lt_ge_cases capacity requested) as [Hlt|Hge].
  { rewrite leastRequestedScore_over_capacity by assumption.
    unfold MaxNodeScore. lia. }
  rewrite leastRequestedScore_formula by lia.
  unfold MaxNodeScore in *.
  rewrite Z.quot_div_nonneg by nia. split.
  - apply Z.div_pos; nia.
  - apply Z.div_le_upper_bound; nia.
Qed.

(** A per-resource score is an [int64], whatever the arguments. *)
Lemma leastRequestedScore_in_range requested capacity :
  Int64.in_range (leastRequestedScore requested capacity).
Proof.
  unfold leastRequestedScore.
  destruct (capacity =? 0); [|destruct (capacity <? requested)];
    try apply wrap_in_range; unfold Int64.in_range, Int64.min, Int64.max; lia.
Qed.

(** The per-resource score does not grow with the usage. *)
Lemma leastRequestedScore_antitone requested requested' capacity :
  0 <= requested <= requested' → 0 <= capacity →
  capacity * MaxNodeScore <= Int64.max →
  leastRequestedScore requested' capacity
  <= leastRequestedScore requested capacity.
Proof.
  intros Hr Hc Hmax.
  destruct (Z.eq_dec capacity 0) as [->|Hne].
  { rewrite !leastRequestedScore_no_capacity. lia. }
  destruct (Z.lt_ge_cases capacity requested') as [Hlt|Hge].
  { rewrite (leastRequestedScore_over_capacity requested') by assumption.
    apply leastRequestedScore_bounds; lia. }
  rewrite !leastRequestedScore_formula by lia.
  unfold MaxNodeScore in *.
  rewrite !Z.quot_div_nonneg by nia.
  apply Z.div_le_mono; nia.
Qed.

(** Go visits the weight map in no fixed order: the outcome of the loop of
    the scorer does not depend on it. *)
Lemma scorerStep_comm used allocatable r1 w1 r2 w2 acc :
  scorerStep used allocatable r1 w1 (scorerStep used allocatable r2 w2 acc)
  = scorerStep used allocatable r2 w2 (scorerStep used allocatable r1 w1 acc).
Proof.
  unfold scorerStep. cbn [fst snd]. unfold Int64.add.
  rewrite !wrap_wrap_add_l. f_equal; f_equal; lia.
Qed.

Lemma scorer_loop_order used allocatable (l1 l2 : list (string * Z)) :
  l1 ≡ₚ l2 →
  foldr (uncurry (scorerStep used allocatable)) (0, 0) l1
  = foldr (uncurry (scorerStep used allocatable)) (0, 0) l2.
Proof.
  apply (foldr_permutation_proper (=)); [apply _|].
  intros [r1 w1] [r2 w2] acc. apply scorerStep_comm.
Qed.

(** The loop of the scorer over a list of weighted resources computes the
    two sums exactly as long as nothing overflows. *)
Lemma scorer_loop_exact used allocatable (l : list (string * Z)) :
  Forall (λ rw, 0 <= rw.2
                ∧ 0 <= int64Of used rw.1
                ∧ 0 <= int64Of allocatable rw.1
                ∧ int64Of allocatable rw.1 * MaxNodeScore <= Int64.max) l →
  foldr (uncurry (λ _ weight acc, acc + weight)) 0 l * MaxNodeScore
    <= Int64.max →
  let acc := foldr (uncurry (scorerStep used allocatable)) (0, 0) l in
  let total := foldr (uncurry (λ (_ : string) weight acc, acc + weight)) 0 l in
  acc.1 = foldr (uncurry (λ resourceName weight acc,
                   acc + leastRequestedScore (int64Of used resourceName)
                           (int64Of allocatable resourceName) * weight)) 0 l
  ∧ acc.2 = total
  ∧ 0 <= acc.1 <= MaxNodeScore * total
  ∧ 0 <= total.
Proof.
  induction l as [|[r w] l IH]; intros Hall Hmax.
  { cbn. unfold MaxNodeScore. lia. }
  inversion Hall as [|? ? (Hw & Hu & Ha & Hcap) Hall']; subst.
  cbn [foldr uncurry] in Hmax |- *. cbn [fst snd] in *.
  assert (0 <= foldr (uncurry (λ (_ : string) weight acc, acc + weight)) 0 l)
    as Htot.
  { clear -Hall'. induction Hall' as [|[r' w'] l' (Hw' & _) _ IH']; cbn in *; lia. }
  destruct IH as (IH1 & IH2 & IH3 & IH4);
    [assumption | unfold MaxNodeScore in *; lia |].
  cbn zeta in *.
  set (acc := foldr (uncurry (scorerStep used allocatable)) (0, 0) l) in *.
  set (total := foldr (uncurry (λ (_ : string) weight acc, acc + weight)) 0 l)
    in *.
  pose proof (leastRequestedScore_bounds _ _ Hu Ha Hcap) as Hs.
  unfold scorerStep. cbn [fst snd].
  set (s := leastRequestedScore (int64Of used r) (int64Of allocatable r)) in *.
  unfold MaxNodeScore in *.
  assert (Int64.min <= 0) by (unfold Int64.min; lia).
  rewrite (mul_small s w) by (unfold Int64.in_range; nia).
  rewrite add_small by (unfold Int64.in_range; nia).
  rewrite add_small by (unfold Int64.in_range; nia).
  rewrite <- IH1, IH2. repeat split; nia.
Qed.

(** C3 as stated fails outside the inputs the scorer is meant for: a
    negative usage scores above the maximum, a negative weight gives a
    negative score although the weights sum to 1, and so does a capacity
    whose product with the maximal score overflows. *)
Lemma loadAwareSchedulingScorer_out_of_range :
  (weightTotal {[ ResourceCPU := 1 ]} = 1
   ∧ loadAwareSchedulingScorer {[ ResourceCPU := 1 ]}
       {[ ResourceCPU := -100 ]} {[ ResourceCPU := 100 ]} = Some 200
   ∧ MaxNodeScore < 200)
  ∧ (weightTotal {[ ResourceCPU := 2; ResourceMemory := -1 ]} = 1
     ∧ loadAwareSchedulingScorer {[ ResourceCPU := 2; ResourceMemory := -1 ]}
         {[ ResourceCPU := 100 ]}
         {[ ResourceCPU := 100; ResourceMemory := 100 ]} = Some (-100))
  ∧ (weightTotal {[ ResourceCPU := 1 ]} = 1
     ∧ loadAwareSchedulingScorer {[ ResourceCPU := 1 ]} ∅
         {[ ResourceCPU := 92233720368547759 ]} = Some (-99)).
Proof. vm_compute. repeat split; reflexivity. Qed.

(** C3 (node scorer), amended.  Per resource the score is 0 when the
    capacity is 0 or the usage exceeds the capacity, and the truncated
    quotient [((C - U) * MaxNodeScore) / C] when [0 <= U <= C] and [0 < C].
    With a single resource of weight 1 the score of the node is the score of
    that resource.  For weights, usages and capacities that are not negative
    (and no overflow of [C * MaxNodeScore] or of the weighted total) with a
    positive sum of weights, the score of the node is the weight-summed
    per-resource score divided by the sum of the weights, and lies between 0
    and [MaxNodeScore]. *)
Theorem loadAwareSchedulingScorer_spec :
  (∀ requested capacity,
     leastRequestedScore requested 0 = 0
     ∧ (capacity < requested → leastRequestedScore requested capacity = 0)
     ∧ (0 < capacity → 0 <= requested <= capacity →
        capacity * MaxNodeScore <= Int64.max →
        leastRequestedScore requested capacity
        = ((capacity - requested) * MaxNodeScore) ÷ capacity))
  ∧ (∀ resourceName used allocatable,
       loadAwareSchedulingScorer {[ resourceName := 1 ]} used allocatable
       = Some (leastRequestedScore (int64Of used resourceName)
                                   (int64Of allocatable resourceName)))
  ∧ (∀ weights used allocatable,
       scorable weights used allocatable →
       0 < weightTotal weights →
       weightTotal weights * MaxNodeScore <= Int64.max →
       ∃ score,
         loadAwareSchedulingScorer weights used allocatable = Some score
         ∧ score = weightedScore weights used allocatable ÷ weightTotal weights
         ∧ 0 <= score <= MaxNodeScore).
Proof.
  split; [|split].
  - intros requested capacity. split; [|split].
    + apply leastRequestedScore_no_capacity.
    + apply leastRequestedScore_over_capacity.
    + apply leastRequestedScore_formula.
  - intros r used allocatable. unfold loadAwareSchedulingScorer.
    rewrite map_fold_singleton. unfold scorerStep. cbn [fst snd].
    pose proof (leastRequestedScore_in_range (int64Of used r)
                  (int64Of allocatable r)) as Hs.
    set (s := leastRequestedScore _ _) in *.
    unfold Int64.mul, Int64.add, Int64.quot.
    rewrite Z.mul_1_r, !Z.add_0_l, wrap_idemp, (wrap_small s) by assumption.
    change (Int64.wrap 1) with 1. change (1 =? 0) with false. cbn iota.
    rewrite Z.quot_1_r, wrap_small by assumption. reflexivity.
  - intros weights used allocatable Hok Hpos Hmax.
    unfold loadAwareSchedulingScorer, weightedScore, weightTotal in *.
    rewrite !map_fold_foldr in *.
    destruct (scorer_loop_exact used allocatable (map_to_list weights))
      as (H1 & H2 & H3 & H4).
    { apply Forall_forall. intros [r w] Hin.
      apply elem_of_map_to_list in Hin. apply (Hok r w Hin). }
    { assumption. }
    cbn zeta in *.
    destruct (foldr (uncurry (scorerStep used allocatable)) (0, 0)
                (map_to_list weights)) as [nodeScore weightSum].
    cbn [fst snd] in *. subst weightSum.
    destruct (Z.eqb_spec
                (foldr (uncurry (λ (_ : string) weight acc, acc + weight)) 0
                   (map_to_list weights)) 0) as [E|_]; [lia|].
    set (total := foldr (uncurry (λ (_ : string) weight acc, acc + weight)) 0
                    (map_to_list weights)) in *.
    assert (0 <= nodeScore ÷ total <= MaxNodeScore) as Hq.
    { rewrite Z.quot_div_nonneg by lia. split.
      - apply Z.div_pos; lia.
      - apply Z.div_le_upper_bound; lia. }
    exists (nodeScore ÷ total). rewrite <- H1.
    rewrite quot_small
      by (unfold Int64.in_range, Int64.min, Int64.max, MaxNodeScore in *; lia).
    auto.
Qed.

(** A node at 300 of 1000 milli-cpu and 10 of 64 units of memory, equal
    weights: [(70 + 84) / 2 = 77]. *)
Lemma loadAwareSchedulingScorer_spec_witness :
  ∃ score,
    loadAwareSchedulingScorer Sample.weights
      {[ ResourceCPU := 300; ResourceMemory := 10 ]}
      {[ ResourceCPU := 1000; ResourceMemory := 64 ]} = Some score
    ∧ score = 154 ÷ 2
    ∧ 0 <= score <= MaxNodeScore.
Proof.
  destruct loadAwareSchedulingScorer_spec as (_ & _ & H).
  destruct (H Sample.weights {[ ResourceCPU := 300; ResourceMemory := 10 ]}
              {[ ResourceCPU := 1000; ResourceMemory := 64 ]})
    as (score & Hscore & Hvalue & Hbounds).
  - unfold scorable, Sample.weights.
    apply map_Forall_insert_2; [|apply map_Forall_singleton];
      vm_compute; repeat split; discriminate.
  - vm_compute. reflexivity.
  - vm_compute. discriminate.
  - exists score. split; [exact Hscore|]. split; [|exact Hbounds].
    rewrite Hvalue. vm_compute. reflexivity.
Defined.

End ScorerFacts.

(** ** The batch-resource plugin *)

Section BatchNodeFacts.

Import Framework BatchResource Spec.

(** C4 (dual naming on the node).  The batch allocatable of a node is the
    value under the current name when there is one, else the value under the
    legacy name, else 0: one ceiling, never the two added.  The batch
    requested total is the [int64] sum of the values under both names, for
    cpu and for memory alike; it is their plain sum whenever that sum fits an
    [int64]. *)
Theorem computeNodeBatch_dual_naming nodeInfo :
  let allocatable := ScalarResources (Allocatable nodeInfo) in
  let requested := ScalarResources (Requested nodeInfo) in
  (MilliCPU (computeNodeBatchAllocatable nodeInfo)
   = match allocatable !! BatchCPU with
     | Some current => current
     | None => int64Of allocatable KoordBatchCPU
     end
   ∧ Memory (computeNodeBatchAllocatable nodeInfo)
     = match allocatable !! BatchMemory with
       | Some current => current
       | None => int64Of allocatable KoordBatchMemory
       end)
  ∧ (MilliCPU (computeNodeBatchRequested nodeInfo)
     = Int64.wrap (int64Of requested BatchCPU + int64Of requested KoordBatchCPU)
     ∧ Memory (computeNodeBatchRequested nodeInfo)
       = Int64.wrap (int64Of requested BatchMemory
                     + int64Of requested KoordBatchMemory))
  ∧ (Int64.in_range (int64Of requested BatchCPU
                     + int64Of requested KoordBatchCPU) →
     MilliCPU (computeNodeBatchRequested nodeInfo)
     = int64Of requested BatchCPU + int64Of requested KoordBatchCPU)
  ∧ (Int64.in_range (int64Of requested BatchMemory
                     + int64Of requested KoordBatchMemory) →
     Memory (computeNodeBatchRequested nodeInfo)
     = int64Of requested BatchMemory + int64Of requested KoordBatchMemory).
Proof.
  intros allocatable requested.
  assert (MilliCPU (computeNodeBatchRequested nodeInfo)
          = Int64.wrap (int64Of requested BatchCPU
                        + int64Of requested KoordBatchCPU)) as Hcpu.
  { unfold computeNodeBatchRequested, int64Of. fold requested.
    destruct (requested !! BatchCPU) as [b|], (requested !! KoordBatchCPU) as [k|],
      (requested !! BatchMemory), (requested !! KoordBatchMemory); cbn;
      unfold Int64.add; rewrite ?Z.add_0_l, ?Z.add_0_r, ?wrap_wrap_add_l;
      reflexivity. }
  assert (Memory (computeNodeBatchRequested nodeInfo)
          = Int64.wrap (int64Of requested BatchMemory
                        + int64Of requested KoordBatchMemory)) as Hmem.
  { unfold computeNodeBatchRequested, int64Of. fold requested.
    destruct (requested !! BatchCPU), (requested !! KoordBatchCPU),
      (requested !! BatchMemory) as [b|], (requested !! KoordBatchMemory) as [k|];
      cbn; unfold Int64.add;
      rewrite ?Z.add_0_l, ?Z.add_0_r, ?wrap_wrap_add_l; reflexivity. }
  split; [|split; [|split]].
  - unfold computeNodeBatchAllocatable, int64Of. fold allocatable.
    destruct (allocatable !! BatchCPU), (allocatable !! KoordBatchCPU),
      (allocatable !! BatchMemory), (allocatable !! KoordBatchMemory);
      split; reflexivity.
  - split; assumption.
  - intros Hr. rewrite Hcpu. apply wrap_small, Hr.
  - intros Hr. rewrite Hmem. apply wrap_small, Hr.
Qed.

(** Legacy name only: its value is the ceiling.  Both names: the current
    one is the ceiling, and the requests under both are added. *)
Lemma computeNodeBatch_dual_naming_witness :
  MilliCPU (computeNodeBatchAllocatable Sample.legacyOnlyNode) = 500
  ∧ MilliCPU (computeNodeBatchAllocatable Sample.mixedNode) = 1000
  ∧ Memory (computeNodeBatchAllocatable Sample.mixedNode) = 4096
  ∧ MilliCPU (computeNodeBatchRequested Sample.mixedNode) = 600 + 200
  ∧ Memory (computeNodeBatchRequested Sample.mixedNode) = 1024 + 0.
Proof.
  destruct (computeNodeBatch_dual_naming Sample.legacyOnlyNode)
    as ((Hlegacy & _) & _).
  destruct (computeNodeBatch_dual_naming Sample.mixedNode)
    as ((Hcpu & Hmem) & _ & Hrcpu & Hrmem).
  split; [rewrite Hlegacy; reflexivity|].
  split; [rewrite Hcpu; reflexivity|].
  split; [rewrite Hmem; reflexivity|].
  split.
  - rewrite Hrcpu; [reflexivity|]. vm_compute. split; discriminate.
  - rewrite Hrmem; [reflexivity|]. vm_compute. split; discriminate.
Defined.

End BatchNodeFacts.

Section BatchPodFacts.

Import Framework BatchResource Spec.

Context (IsScalarResourceName : string → bool).

Local Abbreviation Add := (Add IsScalarResourceName).
Local Abbreviation SetMaxResource := (SetMaxResource IsScalarResourceName).
Local Abbreviation podRequest := (podRequest IsScalarResourceName).
Local Abbreviation computePodBatchRequest :=
  (computePodBatchRequest IsScalarResourceName).
Local Abbreviation fitsRequest := (fitsRequest IsScalarResourceName).
Local Abbreviation Filter := (BatchResource.Filter IsScalarResourceName).











Hypothesis BatchCPU_scalar : IsScalarResourceName BatchCPU = true.
Hypothesis BatchMemory_scalar : IsScalarResourceName BatchMemory = true.
Hypothesis KoordBatchCPU_scalar : IsScalarResourceName KoordBatchCPU = true.
Hypothesis KoordBatchMemory_scalar : IsScalarResourceName KoordBatchMemory = true.


(** C5 (batch-tier admission).  A pod whose batch demand is (0, 0) is
    admitted: no insufficiency is recorded, whatever the node.  Otherwise
    cpu and memory are judged each on its own, cpu first: a record is
    appended for a resource exactly when the demand exceeds the allocatable
    less the requested, and it carries the resource name, the fixed reason
    and the three figures.  [Filter] admits when nothing is recorded and
    rejects with the reasons of the records otherwise. *)
Theorem fitsRequest_spec pod nodeInfo :
  let demand := computePodBatchRequest pod in
  let requested := computeNodeBatchRequested nodeInfo in
  let allocatable := computeNodeBatchAllocatable nodeInfo in
  (MilliCPU demand = 0 ∧ Memory demand = 0 →
   fitsRequest pod nodeInfo = [] ∧ Filter pod nodeInfo = StatusNil)
  ∧ (¬ (MilliCPU demand = 0 ∧ Memory demand = 0) →
     fitsRequest pod nodeInfo
     = (if decide (cpuShort demand requested allocatable)
        then [cpuRecord demand requested allocatable] else [])
       ++ (if decide (memoryShort demand requested allocatable)
           then [memoryRecord demand requested allocatable] else []))
  ∧ Filter pod nodeInfo
    = match fitsRequest pod nodeInfo with
      | [] => StatusNil
      | records => NewStatus Unschedulable (map NodeResources.Reason records)
      end.
Proof.
  intros demand requested allocatable.
  assert (Filter pod nodeInfo
          = match fitsRequest pod nodeInfo with
            | [] => StatusNil
            | records =>
              NewStatus Unschedulable (map NodeResources.Reason records)
            end) as HF.
  { unfold BatchResource.Filter. destruct (fitsRequest pod nodeInfo); reflexivity. }
  split; [|split; [|exact HF]].
  - intros [Hc Hm].
    assert (fitsRequest pod nodeInfo = []) as E.
    { unfold BatchResource.fitsRequest. fold demand. rewrite Hc, Hm. reflexivity. }
    split; [exact E|]. rewrite HF, E. reflexivity.
  - intros Hne. unfold BatchResource.fitsRequest.
    fold demand requested allocatable.
    destruct ((MilliCPU demand =? 0) && (Memory demand =? 0)) eqn:E.
    { apply andb_true_iff in E as [E1 E2].
      apply Z.eqb_eq in E1, E2. tauto. }
    unfold cpuShort, memoryShort, cpuRecord, memoryRecord.
    destruct (Z.ltb_spec (Int64.sub (MilliCPU allocatable) (MilliCPU requested))
                (MilliCPU demand));
      destruct (Z.ltb_spec (Int64.sub (Memory allocatable) (Memory requested))
                  (Memory demand));
      repeat case_decide; try lia; reflexivity.
Qed.

End BatchPodFacts.


(** Allocatable 1000, requested 800: a demand of 300 is rejected for cpu
    alone, a demand of 150 is admitted, and so is a pod with no batch
    demand. *)
Lemma fitsRequest_spec_witness :
  BatchResource.fitsRequest Sample.isScalar (Sample.batchPod 240) Sample.mixedNode
  = [NodeResources.mkInsufficientResource BatchCPU "Insufficient batch cpu"
       300 800 1000]
  ∧ BatchResource.Filter Sample.isScalar (Sample.batchPod 90) Sample.mixedNode
    = StatusNil
  ∧ BatchResource.fitsRequest Sample.isScalar Sample.webPod Sample.legacyOnlyNode
    = [].
Proof.
  destruct (fitsRequest_spec Sample.isScalar (Sample.batchPod 240)
              Sample.mixedNode) as (_ & H300 & _).
  destruct (fitsRequest_spec Sample.isScalar (Sample.batchPod 90)
              Sample.mixedNode) as (_ & H150 & HF).
  destruct (fitsRequest_spec Sample.isScalar Sample.webPod
              Sample.legacyOnlyNode) as (H0 & _).
  split; [|split].
  - rewrite H300; [vm_compute; reflexivity|].
    vm_compute. intros [H _]. discriminate H.
  - rewrite HF, H150; [vm_compute; reflexivity|].
    vm_compute. intros [H _]. discriminate H.
  - apply H0. vm_compute. split; reflexivity.
Defined.

(** ** Scoring and filtering without a fresh snapshot *)

Section SnapshotFacts.

Import LoadAware Spec.

Context (PriorityClass : Type)
        (PodRequestsAndLimits : Pod → gmap string Quantity * gmap string Quantity)
        (GetPriorityClass : Pod → PriorityClass)
        (TranslateResourceNameByPriorityClass : PriorityClass → string → string)
        (usagePercent : Z → Z → Z).

Local Abbreviation Score :=
  (Score PriorityClass PodRequestsAndLimits GetPriorityClass
         TranslateResourceNameByPriorityClass).
Local Abbreviation Filter := (LoadAware.Filter usagePercent).


End SnapshotFacts.



(** * Further properties of the load-aware plugin *)

(** ** Outcomes of [Filter] and [Score] *)

Section OutcomeFacts.

Import LoadAware Spec.

Context (PriorityClass : Type)
        (PodRequestsAndLimits : Pod → gmap string Quantity * gmap string Quantity)
        (GetPriorityClass : Pod → PriorityClass)
        (TranslateResourceNameByPriorityClass : PriorityClass → string → string)
        (usagePercent : Z → Z → Z).

Local Abbreviation Score :=
  (Score PriorityClass PodRequestsAndLimits GetPriorityClass
         TranslateResourceNameByPriorityClass).
Local Abbreviation Filter := (LoadAware.Filter usagePercent).
Local Abbreviation thresholdLoop := (thresholdLoop usagePercent).
Local Abbreviation exceeds := (exceeds usagePercent).

(** The threshold loop admits exactly when no entry exceeds. *)
Lemma thresholdLoop_admits node info (l : list (string * Z)) :
  thresholdLoop node info l = StatusNil
  ↔ Forall (λ rt, ¬ exceeds node info rt.1 rt.2) l.
Proof.
  induction l as [|[r t] l IH]; [split; [constructor|reflexivity]|].
  cbn [LoadAware.thresholdLoop]. rewrite Forall_cons. cbn [fst snd].
  unfold Spec.exceeds at 1.
  destruct (Z.eqb_spec t 0) as [->|Ht]; [rewrite IH; tauto|].
  destruct (IsZero (quantityOf (Allocatable node) r)) eqn:Hz;
    [rewrite IH; intuition congruence|].
  destruct (Z.leb_spec t
              (usagePercent (MilliValue (quantityOf (NodeUsage info) r))
                            (MilliValue (quantityOf (Allocatable node) r)))).
  - split; [discriminate|]. intros [Hn _]. exfalso. apply Hn. auto.
  - rewrite IH. split; [|tauto]. intros Hl. split; [|exact Hl]. lia.
Qed.

(** When it rejects, the reason names an entry that exceeds. *)
Lemma thresholdLoop_rejects node info (l : list (string * Z)) :
  thresholdLoop node info l ≠ StatusNil →
  ∃ r t, (r, t) ∈ l ∧ exceeds node info r t
         ∧ thresholdLoop node info l
           = NewStatus Unschedulable [ErrReasonUsageExceedThreshold r].
Proof.
  induction l as [|[r t] l IH]; [intros H; contradiction H; reflexivity|].
  cbn [LoadAware.thresholdLoop].
  assert (thresholdLoop node info l ≠ StatusNil →
          ∃ r0 t0, (r0, t0) ∈ (r, t) :: l ∧ exceeds node info r0 t0
                   ∧ thresholdLoop node info l
                     = NewStatus Unschedulable
                         [ErrReasonUsageExceedThreshold r0]) as IH'.
  { intros H. destruct (IH H) as (r0 & t0 & Hin & He & Hs).
    exists r0, t0. split; [right; exact Hin|auto]. }
  destruct (Z.eqb_spec t 0) as [->|Ht]; [exact IH'|].
  destruct (IsZero (quantityOf (Allocatable node) r)) eqn:Hz; [exact IH'|].
  destruct (Z.leb_spec t
              (usagePercent (MilliValue (quantityOf (NodeUsage info) r))
                            (MilliValue (quantityOf (Allocatable node) r))));
    [|exact IH'].
  intros _. exists r, t. split; [left|]. split; [|reflexivity].
  unfold Spec.exceeds. auto.
Qed.

Lemma Filter_found p now pod node nodeMetric :
  nodeMetricLister p (Name node) = Found nodeMetric →
  expirationGate p now nodeMetric = false →
  Filter p now pod (Some node)
  = if 0 <? Z.of_nat (size (effectiveThresholds p node)) then
      match StatusNodeMetric nodeMetric with
      | None => StatusNil
      | Some info =>
        thresholdLoop node info (map_to_list (effectiveThresholds p node))
      end
    else StatusNil.
Proof.
  intros Hmetric Hgate. unfold LoadAware.Filter, expirationGate in *.
  rewrite Hmetric, Hgate. reflexivity.
Qed.

(** X1.  Usage thresholds: with a snapshot at hand that the expiration check lets
    through, [Filter] admits the node exactly when the snapshot carries no
    usage, or no resource with a threshold in force exceeds it.  The order in
    which the thresholds are visited plays no part in the decision. *)
Theorem Filter_admits_iff_no_threshold_exceeded p now pod node nodeMetric :
  nodeMetricLister p (Name node) = Found nodeMetric →
  expirationGate p now nodeMetric = false →
  (Filter p now pod (Some node) = StatusNil
   ↔ ∀ info, StatusNodeMetric nodeMetric = Some info →
       ∀ r t, effectiveThresholds p node !! r = Some t →
              ¬ exceeds node info r t).
Proof.
  intros Hmetric Hgate. rewrite (Filter_found _ _ _ _ _ Hmetric Hgate).
  destruct (Z.ltb_spec 0 (Z.of_nat (size (effectiveThresholds p node))))
    as [Hsize|Hsize].
  - destruct (StatusNodeMetric nodeMetric) as [info|].
    + rewrite thresholdLoop_admits, Forall_forall. split.
      * intros H info' [= <-] r t Hrt.
        apply (H (r, t)). apply elem_of_map_to_list. exact Hrt.
      * intros H [r t] Hin. apply (H info eq_refl r t).
        apply elem_of_map_to_list. exact Hin.
    + split; [discriminate|reflexivity].
  - assert (effectiveThresholds p node = ∅) as ->.
    { apply map_size_empty_iff. lia. }
    split; [|reflexivity]. intros _ info _ r t Hrt.
    rewrite lookup_empty in Hrt. discriminate Hrt.
Qed.

(** X2.  When [Filter] turns such a node down, the reason it gives names a
    resource whose threshold is in force and exceeded. *)
Theorem Filter_rejection_names_exceeded_resource p now pod node nodeMetric :
  nodeMetricLister p (Name node) = Found nodeMetric →
  expirationGate p now nodeMetric = false →
  Filter p now pod (Some node) ≠ StatusNil →
  ∃ info r t,
    StatusNodeMetric nodeMetric = Some info
    ∧ effectiveThresholds p node !! r = Some t
    ∧ exceeds node info r t
    ∧ Filter p now pod (Some node)
      = NewStatus Unschedulable [ErrReasonUsageExceedThreshold r].
Proof.
  intros Hmetric Hgate. rewrite (Filter_found _ _ _ _ _ Hmetric Hgate).
  destruct (0 <? Z.of_nat (size (effectiveThresholds p node)));
    [|intros H; contradiction H; reflexivity].
  destruct (StatusNodeMetric nodeMetric) as [info|];
    [|intros H; contradiction H; reflexivity].
  intros H. destruct (thresholdLoop_rejects _ _ _ H) as (r & t & Hin & He & Hs).
  exists info, r, t. split; [reflexivity|].
  split; [apply elem_of_map_to_list; exact Hin|]. auto.
Qed.

(** X3.  [Filter] answers with an error exactly when it is given no node, or the
    telemetry lookup fails with an error other than NotFound, whose message
    it passes on. *)
Theorem Filter_error_iff p now pod node reasons :
  Filter p now pod node = NewStatus Error reasons
  ↔ (node = None ∧ reasons = ["node not found"])
    ∨ (∃ n msg, node = Some n
                ∧ nodeMetricLister p (Name n) = LookupError msg
                ∧ reasons = [msg]).
Proof.
  split.
  - destruct node as [n|]; [|intros [= <-]; left; auto].
    destruct (nodeMetricLister p (Name n)) as [nodeMetric| |msg] eqn:Hmetric.
    + destruct (expirationGate p now nodeMetric) eqn:Hgate.
      * unfold LoadAware.Filter, expirationGate in *.
        rewrite Hmetric, Hgate. discriminate.
      * rewrite (Filter_found _ _ _ _ _ Hmetric Hgate).
        destruct (0 <? Z.of_nat (size (effectiveThresholds p n)));
          [|discriminate].
        destruct (StatusNodeMetric nodeMetric) as [info|]; [|discriminate].
        intros HF.
        destruct (thresholdLoop_rejects n info
                    (map_to_list (effectiveThresholds p n)))
          as (r & _ & _ & _ & Hs); [rewrite HF; discriminate|].
        rewrite HF in Hs. discriminate Hs.
    + unfold LoadAware.Filter. rewrite Hmetric. discriminate.
    + unfold LoadAware.Filter. rewrite Hmetric. intros [= <-].
      right. exists n, msg. auto.
  - intros [[-> ->]|(n & msg & -> & Hmetric & ->)]; [reflexivity|].
    unfold LoadAware.Filter. rewrite Hmetric. reflexivity.
Qed.

End OutcomeFacts.

(** ** Panics and statuses of [Score] *)

Section ScoreFacts.

Import LoadAware Spec.

Context (PriorityClass : Type)
        (PodRequestsAndLimits : Pod → gmap string Quantity * gmap string Quantity)
        (GetPriorityClass : Pod → PriorityClass)
        (TranslateResourceNameByPriorityClass : PriorityClass → string → string)
        (usagePercent : Z → Z → Z).

Local Abbreviation Score :=
  (Score PriorityClass PodRequestsAndLimits GetPriorityClass
         TranslateResourceNameByPriorityClass).
Local Abbreviation Filter := (LoadAware.Filter usagePercent).
Local Abbreviation assignedLoop :=
  (assignedLoop PriorityClass PodRequestsAndLimits GetPriorityClass
                TranslateResourceNameByPriorityClass).
Local Abbreviation estimatedAssignedPodUsage :=
  (estimatedAssignedPodUsage PriorityClass PodRequestsAndLimits GetPriorityClass
                             TranslateResourceNameByPriorityClass).

(** The weight sum of the scorer does not look at usage or capacity. *)
Lemma scorer_loop_weightSum used allocatable (l : list (string * Z)) :
  (foldr (uncurry (scorerStep used allocatable)) (0, 0) l).2
  = foldr (uncurry (λ (_ : string) weight acc, Int64.add acc weight)) 0 l.
Proof.
  induction l as [|[r w] l IH]; [reflexivity|].
  cbn [foldr uncurry]. unfold scorerStep at 1. cbn [fst snd].
  rewrite IH. reflexivity.
Qed.

Lemma scorer_returns weights used allocatable :
  weightSum64 weights ≠ 0 →
  ∃ score, loadAwareSchedulingScorer weights used allocatable = Some score.
Proof.
  unfold loadAwareSchedulingScorer, weightSum64. rewrite !map_fold_foldr.
  rewrite <- (scorer_loop_weightSum used allocatable).
  destruct (foldr (uncurry (scorerStep used allocatable)) (0, 0)
              (map_to_list weights)) as [nodeScore weightSum].
  cbn [snd]. intros H. destruct (Z.eqb_spec weightSum 0); [contradiction|].
  eauto.
Qed.

(** X4.  The scorer panics, dividing by zero, exactly when the weights sum to
    zero in [int64], as they do for the empty weight map; usage and capacity
    have no say in it. *)
Theorem loadAwareSchedulingScorer_panics_iff weights used allocatable :
  loadAwareSchedulingScorer weights used allocatable = None
  ↔ weightSum64 weights = 0.
Proof.
  unfold loadAwareSchedulingScorer, weightSum64. rewrite !map_fold_foldr.
  pose proof (scorer_loop_weightSum used allocatable (map_to_list weights))
    as Hsum.
  destruct (foldr (uncurry (scorerStep used allocatable)) (0, 0)
              (map_to_list weights)) as [nodeScore weightSum].
  cbn [snd] in Hsum. rewrite <- Hsum.
  destruct (Z.eqb_spec weightSum 0); split; congruence.
Qed.

(** X5.  The pending-usage estimate panics, on a nil update time, exactly when
    the snapshot has no update time and the node has a tracked assignment. *)
Theorem estimatedAssignedPodUsage_panics_iff p nodeName nodeMetric :
  estimatedAssignedPodUsage p nodeName nodeMetric = None
  ↔ UpdateTime nodeMetric = None
    ∧ default [] (podInfoItems p !! nodeName) ≠ [].
Proof.
  unfold LoadAware.estimatedAssignedPodUsage.
  destruct (UpdateTime nodeMetric) as [T|].
  - rewrite assignedLoop_filter
      by apply getNodeMetricReportInterval_in_range.
    split; [discriminate|]. intros [H _]. discriminate H.
  - destruct (default [] (podInfoItems p !! nodeName)) as [|x rest].
    + split; [discriminate|]. intros [_ H]. contradiction H. reflexivity.
    + split; [|reflexivity]. intros _. split; [reflexivity|discriminate].
Qed.

(** With an expiration configured, the expiration check of [Score] lets no
    snapshot without update time through. *)
Lemma not_expired_has_update_time now nodeMetric seconds :
  isNodeMetricExpired now (Some nodeMetric) seconds = false →
  ∃ T, UpdateTime nodeMetric = Some T.
Proof.
  unfold isNodeMetricExpired. destruct (UpdateTime nodeMetric) as [T|];
    [eauto|discriminate].
Qed.

(** X6.  [Score] never panics once an expiration is configured and the weights
    do not sum to zero: whatever the lookups answer, it returns a score and a
    status. *)
Theorem Score_returns p now pod nodeName seconds :
  NodeMetricExpirationSeconds (args p) = Some seconds →
  weightSum64 (ResourceWeights (args p)) ≠ 0 →
  ∃ score status, Score p now pod nodeName = Some (score, status).
Proof.
  intros Hseconds Hweights. unfold LoadAware.Score.
  destruct (nodeInfos p nodeName) as [[node|]| |msg]; eauto.
  destruct (nodeMetricLister p nodeName) as [nodeMetric| |msg]; eauto.
  rewrite Hseconds.
  destruct (isNodeMetricExpired now (Some nodeMetric) seconds) eqn:Hexp; eauto.
  destruct (not_expired_has_update_time _ _ _ Hexp) as [T HT].
  destruct (estimatedAssignedPodUsage p nodeName nodeMetric) as [assigned|]
    eqn:Hassigned.
  - match goal with
    | |- context [loadAwareSchedulingScorer ?w ?u ?a] =>
      destruct (scorer_returns w u a Hweights) as [score ->]
    end. eauto.
  - unfold LoadAware.estimatedAssignedPodUsage in Hassigned.
    rewrite HT, assignedLoop_filter in Hassigned
      by apply getNodeMetricReportInterval_in_range.
    discriminate Hassigned.
Qed.

(** X7.  [Score] never answers unschedulable.  Its status is nil, or an error
    that comes with the score 0 and arises only from a failed lookup: the
    node lister has no node of that name, or the telemetry lookup fails with
    an error other than NotFound, whose message is passed on. *)
Theorem Score_status p now pod nodeName score status :
  Score p now pod nodeName = Some (score, status) →
  status = StatusNil
  ∨ (score = 0
     ∧ ∃ reasons, status = NewStatus Error reasons
         ∧ ((∀ node, nodeInfos p nodeName ≠ Found (Some node))
            ∨ (∃ msg, nodeMetricLister p nodeName = LookupError msg
                      ∧ reasons = [msg]))).
Proof.
  unfold LoadAware.Score.
  destruct (nodeInfos p nodeName) as [[node|]| |msg'] eqn:Hnode;
    try (intros [= <- <-]; right; split; [reflexivity|];
         eexists; split; [reflexivity|]; left; intros node; discriminate).
  destruct (nodeMetricLister p nodeName) as [nodeMetric| |msg] eqn:Hmetric.
  - destruct (match NodeMetricExpirationSeconds (args p) with
              | Some seconds => isNodeMetricExpired now (Some nodeMetric) seconds
              | None => false
              end); [intros [= <- <-]; left; reflexivity|].
    destruct (estimatedAssignedPodUsage p nodeName nodeMetric); [|discriminate].
    match goal with
    | |- context [loadAwareSchedulingScorer ?w ?u ?a] =>
      destruct (loadAwareSchedulingScorer w u a)
    end; [|discriminate].
    intros [= <- <-]. left. reflexivity.
  - intros [= <- <-]. left. reflexivity.
  - intros [= <- <-]. right. split; [reflexivity|].
    eexists. split; [reflexivity|]. right. eauto.
Qed.

End ScoreFacts.

(** On the idle node neither threshold is exceeded; on the busy one the
    rejection names a resource, cpu at 70 percent against 65. *)
Lemma Filter_admits_iff_no_threshold_exceeded_witness :
  ¬ Spec.exceeds Sample.percent Sample.node Sample.idleUsage ResourceCPU 65
  ∧ ¬ Spec.exceeds Sample.percent Sample.node Sample.idleUsage ResourceMemory 95.
Proof.
  pose proof (Filter_admits_iff_no_threshold_exceeded Sample.percent
                (Sample.thresholdPlugin
                   (LoadAware.Found (Sample.freshSnapshot Sample.idleUsage)))
                Sample.soon Sample.webPod Sample.node
                (Sample.freshSnapshot Sample.idleUsage) eq_refl eq_refl) as [H _].
  split.
  - apply (H eq_refl Sample.idleUsage eq_refl ResourceCPU 65 eq_refl).
  - apply (H eq_refl Sample.idleUsage eq_refl ResourceMemory 95 eq_refl).
Defined.

Lemma Filter_rejection_names_exceeded_resource_witness :
  let p := Sample.thresholdPlugin
             (LoadAware.Found (Sample.freshSnapshot Sample.busyUsage)) in
  ∃ info r t,
    LoadAware.StatusNodeMetric (Sample.freshSnapshot Sample.busyUsage) = Some info
    ∧ Spec.effectiveThresholds p Sample.node !! r = Some t
    ∧ Spec.exceeds Sample.percent Sample.node info r t
    ∧ LoadAware.Filter Sample.percent p Sample.soon Sample.webPod
        (Some Sample.node)
      = NewStatus Unschedulable [LoadAware.ErrReasonUsageExceedThreshold r].
Proof.
  intros p.
  apply (Filter_rejection_names_exceeded_resource Sample.percent p Sample.soon
           Sample.webPod Sample.node (Sample.freshSnapshot Sample.busyUsage)
           eq_refl eq_refl).
  vm_compute. discriminate.
Defined.

(** With the sample weights and an expiration of 180 seconds [Score]
    returns, here the score of the busy node, and with a nil status. *)
Lemma Score_returns_witness :
  ∃ score status,
    LoadAware.Score unit Sample.requestsAndLimits Sample.priorityClass
      Sample.translate
      (Sample.thresholdPlugin
         (LoadAware.Found (Sample.freshSnapshot Sample.busyUsage)))
      Sample.soon Sample.webPod "node-1" = Some (score, status).
Proof.
  apply (Score_returns unit Sample.requestsAndLimits Sample.priorityClass
           Sample.translate
           (Sample.thresholdPlugin
              (LoadAware.Found (Sample.freshSnapshot Sample.busyUsage)))
           Sample.soon Sample.webPod "node-1" 180 eq_refl).
  vm_compute. discriminate.
Defined.

(** A telemetry lookup that times out: the score is 0 and the error carries
    the message of the lookup. *)
Lemma Score_status_witness :
  let p := Sample.thresholdPlugin (LoadAware.LookupError "timeout") in
  NewStatus Error ["timeout"] = StatusNil
  ∨ (0 = 0
     ∧ ∃ reasons, NewStatus Error ["timeout"] = NewStatus Error reasons
         ∧ ((∀ node, LoadAware.nodeInfos p "node-1"
                     ≠ LoadAware.Found (Some node))
            ∨ (∃ msg, LoadAware.nodeMetricLister p "node-1"
                      = LoadAware.LookupError msg
                      ∧ reasons = [msg]))).
Proof.
  intros p.
  apply (Score_status unit Sample.requestsAndLimits Sample.priorityClass
           Sample.translate p Sample.soon Sample.webPod "node-1" 0
           (NewStatus Error ["timeout"])).
  reflexivity.
Defined.

(** ** [Filter] and [Score] on the same expired snapshot *)

Section ExpiredFacts.

Import LoadAware Spec.

Context (PriorityClass : Type)
        (PodRequestsAndLimits : Pod → gmap string Quantity * gmap string Quantity)
        (GetPriorityClass : Pod → PriorityClass)
        (TranslateResourceNameByPriorityClass : PriorityClass → string → string)
        (usagePercent : Z → Z → Z).

Local Abbreviation Score :=
  (Score PriorityClass PodRequestsAndLimits GetPriorityClass
         TranslateResourceNameByPriorityClass).
Local Abbreviation Filter := (LoadAware.Filter usagePercent).

Lemma length_append (a b : string) :
  String.length (a +:+ b) = (String.length a + String.length b)%nat.
Proof. induction a as [|c a IH]; [reflexivity|]. simpl. f_equal. exact IH. Qed.

(** The two rejection reasons of [Filter] cannot be mistaken for each other,
    whatever the name of the resource. *)
Lemma usage_reason_is_not_expired_reason resourceName :
  ErrReasonUsageExceedThreshold resourceName ≠ ErrReasonNodeMetricExpired.
Proof.
  intros H. apply (f_equal String.length) in H.
  unfold ErrReasonUsageExceedThreshold, ErrReasonNodeMetricExpired in H.
  rewrite !length_append in H. cbn in H. lia.
Qed.

Lemma single_reason code code' (reason reason' : string) :
  NewStatus code [reason] = NewStatus code' [reason'] → reason = reason'.
Proof. intros [= _ H]. exact H. Qed.

(** X8.  A node that [Filter] turns down for an expired snapshot is a node that
    [Score], were it asked, would give the score 0 with no error: the two
    agree on what expired means. *)
Theorem Filter_expired_then_Score_zero p now pod node :
  Filter p now pod (Some node)
  = NewStatus Unschedulable [ErrReasonNodeMetricExpired] →
  nodeInfos p (Name node) = Found (Some node) →
  Score p now pod (Name node) = Some (0, StatusNil).
Proof.
  intros HF Hnode. unfold LoadAware.Score. rewrite Hnode.
  destruct (nodeMetricLister p (Name node)) as [nodeMetric| |msg] eqn:Hmetric;
    [| unfold LoadAware.Filter in HF; rewrite Hmetric in HF; discriminate HF
     | unfold LoadAware.Filter in HF; rewrite Hmetric in HF; discriminate HF].
  destruct (expirationGate p now nodeMetric) eqn:Hgate.
  - unfold expirationGate in Hgate.
    destruct (FilterExpiredNodeMetrics (args p)) as [[|]|]; try discriminate.
    destruct (NodeMetricExpirationSeconds (args p)) as [seconds|];
      [|discriminate].
    rewrite Hgate. reflexivity.
  - exfalso. rewrite (Filter_found _ _ _ _ _ _ Hmetric Hgate) in HF.
    destruct (0 <? Z.of_nat (size (effectiveThresholds p node)));
      [|discriminate].
    destruct (StatusNodeMetric nodeMetric) as [info|]; [|discriminate].
    destruct (thresholdLoop_rejects usagePercent node info
                (map_to_list (effectiveThresholds p node)))
      as (r & _ & _ & _ & Hs); [rewrite HF; discriminate|].
    rewrite HF in Hs. apply single_reason in Hs.
    symmetry in Hs. exact (usage_reason_is_not_expired_reason r Hs).
Qed.

(** X9.  Expiration only ever sets in: a snapshot expired at some time is expired
    at every later time.  And within the expirations a duration holds, a
    snapshot expired under one expiration is expired under every shorter
    positive one. *)
Theorem isNodeMetricExpired_persists now now' nodeMetric seconds seconds' :
  (now <= now' →
   isNodeMetricExpired now nodeMetric seconds = true →
   isNodeMetricExpired now' nodeMetric seconds = true)
  ∧ (0 < seconds' <= seconds → seconds <= maxDurationSeconds →
     isNodeMetricExpired now nodeMetric seconds = true →
     isNodeMetricExpired now nodeMetric seconds' = true).
Proof.
  unfold isNodeMetricExpired.
  destruct nodeMetric as [nm|]; [|split; reflexivity].
  destruct (UpdateTime nm) as [t|]; [|split; reflexivity].
  rewrite !andb_true_iff, !Z.ltb_lt, !Z.leb_le. split.
  - intros Hnow [Hpos Hle]. split; [assumption|].
    unfold Sub in *. lia.
  - intros Hs Hmax [Hpos Hle]. split; [lia|].
    rewrite secondsToDuration_exact in *
      by (unfold maxDurationSeconds in *; lia).
    unfold Second in *. lia.
Qed.

End ExpiredFacts.

(** The gate on, an expiration of 180 seconds, a snapshot 200 seconds old. *)
Lemma Filter_expired_then_Score_zero_witness :
  LoadAware.Score unit Sample.requestsAndLimits Sample.priorityClass
    Sample.translate
    (Sample.scoringPlugin (Some true) (LoadAware.Found Sample.snapshot))
    (1200 * LoadAware.Second) Sample.webPod "node-1" = Some (0, StatusNil).
Proof.
  apply (Filter_expired_then_Score_zero unit Sample.requestsAndLimits
           Sample.priorityClass Sample.translate Sample.percent
           (Sample.scoringPlugin (Some true) (LoadAware.Found Sample.snapshot))
           (1200 * LoadAware.Second) Sample.webPod Sample.node);
    reflexivity.
Defined.

(** Expired 200 seconds after the update under 180 seconds: still expired
    100 seconds later, and expired under 60 seconds. *)
Lemma isNodeMetricExpired_persists_witness :
  LoadAware.isNodeMetricExpired (1300 * LoadAware.Second)
    (Some Sample.snapshot) 180 = true
  ∧ LoadAware.isNodeMetricExpired (1200 * LoadAware.Second)
      (Some Sample.snapshot) 60 = true.
Proof.
  split.
  - apply (proj1 (isNodeMetricExpired_persists (1200 * LoadAware.Second)
                    (1300 * LoadAware.Second) (Some Sample.snapshot) 180 180));
      [unfold LoadAware.Second; lia | reflexivity].
  - apply (proj2 (isNodeMetricExpired_persists (1200 * LoadAware.Second)
                    (1200 * LoadAware.Second) (Some Sample.snapshot) 180 60));
      [lia | unfold Spec.maxDurationSeconds; lia | reflexivity].
Defined.

(** ** More on the resource estimator *)

Section EstimateFacts.

Import LoadAware Spec.

Lemma roundScaled_nonneg v scalingFactor :
  0 <= v → 0 <= scalingFactor → 0 <= roundScaled v scalingFactor.
Proof.
  intros Hv Hs. unfold roundScaled.
  destruct (Z.leb_spec 0 (v * scalingFactor)); [|nia].
  apply Z.div_pos; lia.
Qed.

Lemma roundScaled_monotone v scalingFactor scalingFactor' :
  0 <= v → scalingFactor <= scalingFactor' →
  roundScaled v scalingFactor <= roundScaled v scalingFactor'.
Proof.
  intros Hv Hs. unfold roundScaled.
  assert (v * scalingFactor <= v * scalingFactor') as Hp by nia.
  destruct (Z.leb_spec 0 (v * scalingFactor)),
           (Z.leb_spec 0 (v * scalingFactor')); try lia.
  - apply Z.div_le_mono; lia.
  - pose proof (Z.div_pos (- (v * scalingFactor) + 50) 100
                  ltac:(lia) ltac:(lia)).
    pose proof (Z.div_pos (v * scalingFactor' + 50) 100 ltac:(lia) ltac:(lia)).
    lia.
  - pose proof (Z.div_le_mono (- (v * scalingFactor') + 50)
                  (- (v * scalingFactor) + 50) 100 ltac:(lia) ltac:(lia)).
    lia.
Qed.

Lemma figure_nonneg resourceName q :
  0 <= milliUnits q <= Int64.max → 0 <= figure resourceName q.
Proof.
  intros Hq. unfold figure, MilliValue, Value.
  assert (Int64.min <= 0) by (unfold Int64.min; lia).
  destruct (String.eqb resourceName ResourceCPU).
  - rewrite wrap_small by (unfold Int64.in_range; lia). lia.
  - destruct (Z.leb_spec 0 (milliUnits q)); [|lia].
    pose proof (Z.div_pos (milliUnits q + 999) 1000 ltac:(lia) ltac:(lia)).
    assert ((milliUnits q + 999) / 1000 <= Int64.max).
    { apply Z.div_le_upper_bound; unfold Int64.max in *; lia. }
    rewrite wrap_small by (unfold Int64.in_range; lia). lia.
Qed.

(** X10.  For a workload that declares the resource (a request or a limit,
    both not negative), and where the rounding of the source is exact (the
    request's figure times the scaling factor, and the limit's figure times
    100, below [2 ^ 53]), the estimate is not negative under a scaling factor
    that is not negative, and never above the figure of the limit; so it is
    0 when no limit is declared. *)
Theorem estimatedUsedByResource_bounds
    (requests limits : gmap string Quantity) resourceName scalingFactor :
  0 <= milliUnits (quantityOf requests resourceName) <= Int64.max →
  0 <= milliUnits (quantityOf limits resourceName) <= Int64.max →
  0 <= scalingFactor →
  roundsExactly (figure resourceName (quantityOf requests resourceName))
                scalingFactor →
  roundsExactly (figure resourceName (quantityOf limits resourceName)) 100 →
  IsZero (quantityOf requests resourceName) = false
  ∨ IsZero (quantityOf limits resourceName) = false →
  0 <= estimatedUsedByResource requests limits resourceName scalingFactor
    <= figure resourceName (quantityOf limits resourceName).
Proof.
  intros Hr Hl Hs _ _ Hdeclared.
  pose proof (figure_nonneg resourceName _ Hr) as Hfr.
  pose proof (figure_nonneg resourceName _ Hl) as Hfl.
  destruct (Z.lt_ge_cases (milliUnits (quantityOf requests resourceName))
              (milliUnits (quantityOf limits resourceName))) as [Hlt|Hge].
  - rewrite estimatedUsedByResource_limit_above_request; [lia|assumption|].
    unfold IsZero. apply Z.eqb_neq. lia.
  - rewrite estimatedUsedByResource_scaled_request; [|lia|].
    + pose proof (roundScaled_nonneg _ _ Hfr Hs). lia.
    + destruct Hdeclared as [H|H]; [exact H|].
      unfold IsZero in *. apply Z.eqb_neq. apply Z.eqb_neq in H. lia.
Qed.

(** X11.  Raising the scaling factor never lowers the estimate of a request
    that is not negative, where the rounding of the source is exact (the
    request's figure times either scaling factor, and the limit's figure
    times 100, below [2 ^ 53] in absolute value). *)
Theorem estimatedUsedByResource_monotone
    (requests limits : gmap string Quantity) resourceName
    scalingFactor scalingFactor' :
  0 <= milliUnits (quantityOf requests resourceName) <= Int64.max →
  scalingFactor <= scalingFactor' →
  roundsExactly (figure resourceName (quantityOf requests resourceName))
                scalingFactor →
  roundsExactly (figure resourceName (quantityOf requests resourceName))
                scalingFactor' →
  roundsExactly (figure resourceName (quantityOf limits resourceName)) 100 →
  estimatedUsedByResource requests limits resourceName scalingFactor
  <= estimatedUsedByResource requests limits resourceName scalingFactor'.
Proof.
  intros Hr Hs _ _ _.
  pose proof (figure_nonneg resourceName _ Hr) as Hfr.
  unfold estimatedUsedByResource.
  destruct (0 <? Cmp _ _); [lia|].
  destruct (IsZero (quantityOf requests resourceName)); [lia|].
  fold (figure resourceName (quantityOf requests resourceName)).
  fold (figure resourceName (quantityOf limits resourceName)).
  pose proof (roundScaled_monotone _ _ _ Hfr Hs) as Hm.
  unfold figure in *.
  destruct (String.eqb resourceName ResourceCPU);
    repeat match goal with
           | |- context [?a <? ?b] => destruct (Z.ltb_spec a b)
           end; lia.
Qed.

Context (PriorityClass : Type)
        (PodRequestsAndLimits : Pod → gmap string Quantity * gmap string Quantity)
        (GetPriorityClass : Pod → PriorityClass)
        (TranslateResourceNameByPriorityClass : PriorityClass → string → string).

Local Abbreviation estimatedPodUsed :=
  (estimatedPodUsed PriorityClass PodRequestsAndLimits GetPriorityClass
                    TranslateResourceNameByPriorityClass).
Local Abbreviation estimatedAssignedPodUsage :=
  (estimatedAssignedPodUsage PriorityClass PodRequestsAndLimits GetPriorityClass
                             TranslateResourceNameByPriorityClass).

(** The estimate of a pod has an entry for exactly the resources of the
    weight map, those of weight 0 included.  The entry is estimated under the
    name the priority class translates the resource to, with the scaling
    factor configured under the untranslated name, 0 when there is none. *)
Lemma estimatedPodUsed_lookup pod (resourceWeights scalingFactors : gmap string Z)
    resourceName :
  estimatedPodUsed pod resourceWeights scalingFactors !! resourceName
  = match resourceWeights !! resourceName with
    | Some _ =>
      Some (estimatedUsedByResource
              (PodRequestsAndLimits pod).1 (PodRequestsAndLimits pod).2
              (TranslateResourceNameByPriorityClass (GetPriorityClass pod)
                                                    resourceName)
              (int64Of scalingFactors resourceName))
    | None => None
    end.
Proof.
  unfold LoadAware.estimatedPodUsed.
  destruct (PodRequestsAndLimits pod) as [requests limits].
  rewrite map_lookup_imap.
  destruct (resourceWeights !! resourceName); reflexivity.
Qed.

(** X13.  The loop [into[name] += value] over a map adds entry by entry in
    [int64]: an entry of [from] is added to the entry of [into], taken as 0
    when there is none, and the other entries of [into] stay. *)
Theorem addInto_lookup (into from : gmap string Z) resourceName :
  addInto into from !! resourceName
  = match from !! resourceName with
    | Some value => Some (Int64.add (int64Of into resourceName) value)
    | None => into !! resourceName
    end.
Proof.
  unfold addInto.
  apply (map_fold_weak_ind (λ acc (m : gmap string Z),
    acc !! resourceName
    = match m !! resourceName with
      | Some value => Some (Int64.add (int64Of into resourceName) value)
      | None => into !! resourceName
      end)).
  { rewrite lookup_empty. reflexivity. }
  intros i x m acc Hfresh IH.
  destruct (decide (i = resourceName)) as [->|Hne].
  - rewrite !lookup_insert_eq. rewrite Hfresh in IH.
    unfold int64Of. rewrite IH. reflexivity.
  - rewrite !lookup_insert_ne by assumption. exact IH.
Qed.

Lemma addInto_is_Some (into from : gmap string Z) resourceName :
  is_Some (addInto into from !! resourceName) →
  is_Some (into !! resourceName) ∨ is_Some (from !! resourceName).
Proof.
  unfold addInto.
  apply (map_fold_weak_ind (λ acc (m : gmap string Z),
    is_Some (acc !! resourceName) →
    is_Some (into !! resourceName) ∨ is_Some (m !! resourceName))).
  { auto. }
  intros i x m acc Hfresh IH.
  destruct (decide (i = resourceName)) as [->|Hne].
  - rewrite !lookup_insert_eq. eauto.
  - rewrite !lookup_insert_ne by assumption. exact IH.
Qed.

Lemma estimatedPodUsed_is_Some pod (resourceWeights scalingFactors : gmap string Z)
    resourceName :
  is_Some (estimatedPodUsed pod resourceWeights scalingFactors !! resourceName) →
  is_Some (resourceWeights !! resourceName).
Proof.
  unfold LoadAware.estimatedPodUsed.
  destruct (PodRequestsAndLimits pod) as [requests limits].
  rewrite map_lookup_imap.
  destruct (resourceWeights !! resourceName); [eauto|].
  intros [? H]. discriminate H.
Qed.

(** X14.  The pending usage of a node has entries for weighted resources only. *)
Theorem estimatedAssignedPodUsage_keys p nodeName nodeMetric pending
    resourceName :
  estimatedAssignedPodUsage p nodeName nodeMetric = Some pending →
  is_Some (pending !! resourceName) →
  is_Some (ResourceWeights (args p) !! resourceName).
Proof.
  unfold LoadAware.estimatedAssignedPodUsage.
  generalize (getNodeMetricReportInterval nodeMetric) as interval.
  generalize (default [] (podInfoItems p !! nodeName)) as items.
  intros items interval.
  assert (∀ acc,
    (is_Some (acc !! resourceName) →
     is_Some (ResourceWeights (args p) !! resourceName)) →
    LoadAware.assignedLoop PriorityClass PodRequestsAndLimits GetPriorityClass
      TranslateResourceNameByPriorityClass (args p) (UpdateTime nodeMetric)
      interval items acc = Some pending →
    is_Some (pending !! resourceName) →
    is_Some (ResourceWeights (args p) !! resourceName)) as Hloop.
  { induction items as [|x rest IH]; intros acc Hacc.
    - intros [= <-]. exact Hacc.
    - cbn [LoadAware.assignedLoop].
      destruct (UpdateTime nodeMetric) as [T|]; [|discriminate].
      destruct (After (timestamp x) T
                || Before (timestamp x) T && (Sub T (timestamp x) <? interval));
        [|apply IH; exact Hacc].
      apply IH. intros Hsome.
      destruct (addInto_is_Some _ _ _ Hsome) as [H|H]; [exact (Hacc H)|].
      exact (estimatedPodUsed_is_Some _ _ _ _ H). }
  apply Hloop. rewrite lookup_empty. intros [? H]. discriminate H.
Qed.

End EstimateFacts.

(** A request of 100 limited to 100: between 0 and 100 at 70 percent, and
    no lower at 85 percent than at 50. *)
Lemma estimatedUsedByResource_bounds_witness :
  0 <= LoadAware.estimatedUsedByResource {[ ResourceMemory := units 100 ]}
         {[ ResourceMemory := units 100 ]} ResourceMemory 70
    <= Spec.figure ResourceMemory
         (quantityOf {[ ResourceMemory := units 100 ]} ResourceMemory).
Proof.
  apply (estimatedUsedByResource_bounds {[ ResourceMemory := units 100 ]}
           {[ ResourceMemory := units 100 ]} ResourceMemory 70).
  - vm_compute. split; discriminate.
  - vm_compute. split; discriminate.
  - lia.
  - vm_compute. reflexivity.
  - vm_compute. reflexivity.
  - left. reflexivity.
Defined.

Lemma estimatedUsedByResource_monotone_witness :
  LoadAware.estimatedUsedByResource {[ ResourceMemory := units 100 ]}
    {[ ResourceMemory := units 100 ]} ResourceMemory 50
  <= LoadAware.estimatedUsedByResource {[ ResourceMemory := units 100 ]}
       {[ ResourceMemory := units 100 ]} ResourceMemory 85.
Proof.
  apply (estimatedUsedByResource_monotone {[ ResourceMemory := units 100 ]}
           {[ ResourceMemory := units 100 ]} ResourceMemory 50 85).
  - vm_compute. split; discriminate.
  - lia.
  - vm_compute. reflexivity.
  - vm_compute. reflexivity.
  - vm_compute. reflexivity.
Defined.

(** The pending usage of the sample node has a cpu entry, and cpu is a
    weighted resource. *)
Lemma estimatedAssignedPodUsage_keys_witness :
  is_Some (LoadAware.ResourceWeights Sample.loadAwareArgs !! ResourceCPU).
Proof.
  apply (estimatedAssignedPodUsage_keys unit Sample.requestsAndLimits
           Sample.priorityClass Sample.translate
           (Sample.plugin [Sample.halfIntervalBefore; Sample.oneSecondAfter])
           "node-1" Sample.snapshot
           (Spec.pendingSum unit Sample.requestsAndLimits Sample.priorityClass
              Sample.translate Sample.loadAwareArgs
              [Sample.halfIntervalBefore; Sample.oneSecondAfter] ∅)
           ResourceCPU).
  - vm_compute. reflexivity.
  - vm_compute. eexists. reflexivity.
Defined.

(** ** More on the node scorer *)

Section ScorerEdgeFacts.

Import LoadAware Spec.

Lemma leastRequestedScore_saturated requested capacity :
  capacity <= requested → leastRequestedScore requested capacity = 0.
Proof.
  intros H. unfold leastRequestedScore.
  destruct (Z.eqb_spec capacity 0); [reflexivity|].
  destruct (Z.ltb_spec capacity requested); [reflexivity|].
  assert (requested = capacity) as -> by lia.
  unfold Int64.sub. rewrite Z.sub_diag.
  change (Int64.mul (Int64.wrap 0) MaxNodeScore) with 0.
  unfold Int64.quot. rewrite Z.quot_0_l by assumption. reflexivity.
Qed.

Lemma leastRequestedScore_idle capacity :
  0 < capacity → capacity * MaxNodeScore <= Int64.max →
  leastRequestedScore 0 capacity = MaxNodeScore.
Proof.
  intros Hc Hmax. rewrite leastRequestedScore_formula by lia.
  rewrite Z.sub_0_r, Z.mul_comm. apply Z.quot_mul. lia.
Qed.

(** X18.  On usages and capacities that are not negative (and do not
    overflow), the score of a resource never rises with more usage and
    never falls with more capacity. *)
Theorem leastRequestedScore_monotone requested requested' capacity capacity' :
  0 <= requested <= requested' → 0 <= capacity <= capacity' →
  capacity' * MaxNodeScore <= Int64.max →
  leastRequestedScore requested' capacity
    <= leastRequestedScore requested capacity
  ∧ leastRequestedScore requested capacity
    <= leastRequestedScore requested capacity'.
Proof.
  intros Hr Hc Hmax. unfold MaxNodeScore in *. split.
  - apply leastRequestedScore_antitone; unfold MaxNodeScore; lia.
  - pose proof (leastRequestedScore_bounds requested capacity'
                  ltac:(lia) ltac:(lia) ltac:(unfold MaxNodeScore; lia)) as Hb.
    destruct (Z.eq_dec capacity 0) as [->|Hne].
    { rewrite leastRequestedScore_no_capacity. lia. }
    destruct (Z.lt_ge_cases capacity requested) as [Hlt|Hge].
    { rewrite leastRequestedScore_over_capacity by assumption. lia. }
    rewrite !leastRequestedScore_formula by (unfold MaxNodeScore; lia).
    unfold MaxNodeScore. rewrite !Z.quot_div_nonneg by nia.
    set (q := (capacity - requested) * 100 / capacity).
    assert (capacity * q <= (capacity - requested) * 100)
      by (apply Z.mul_div_le; lia).
    assert (q <= 100) by (apply Z.div_le_upper_bound; nia).
    apply Z.div_le_lower_bound; nia.
Qed.

(** X15.  A node at or over capacity on every weighted resource scores 0,
    whatever the weights, as long as they do not sum to zero. *)
Theorem loadAwareSchedulingScorer_saturated weights used allocatable :
  map_Forall (λ resourceName (_ : Z),
    int64Of allocatable resourceName <= int64Of used resourceName) weights →
  weightSum64 weights ≠ 0 →
  loadAwareSchedulingScorer weights used allocatable = Some 0.
Proof.
  intros Hfull Hsum. unfold loadAwareSchedulingScorer, weightSum64 in *.
  rewrite !map_fold_foldr in *.
  rewrite <- (scorer_loop_weightSum used allocatable) in Hsum.
  assert ((foldr (uncurry (scorerStep used allocatable)) (0, 0)
             (map_to_list weights)).1 = 0) as Hscore.
  { assert (Forall (λ rw : string * Z,
              int64Of allocatable rw.1 <= int64Of used rw.1)
              (map_to_list weights)) as Hall.
    { apply Forall_forall. intros [r w] Hin.
      apply elem_of_map_to_list in Hin. exact (Hfull r w Hin). }
    clear Hsum Hfull.
    induction Hall as [|[r w] l Hrw _ IH]; [reflexivity|].
    cbn [foldr uncurry]. unfold scorerStep at 1. cbn [fst snd] in *.
    rewrite IH, leastRequestedScore_saturated by exact Hrw. reflexivity. }
  destruct (foldr (uncurry (scorerStep used allocatable)) (0, 0)
              (map_to_list weights)) as [nodeScore weightSum].
  cbn [fst snd] in *. subst nodeScore.
  destruct (Z.eqb_spec weightSum 0); [contradiction|].
  unfold Int64.quot. rewrite Z.quot_0_l by assumption. reflexivity.
Qed.

(** X16.  A node with no usage at all on every weighted resource, each with some
    capacity, scores [MaxNodeScore] (weights not negative, their sum
    positive, no overflow). *)
Theorem loadAwareSchedulingScorer_idle weights used allocatable :
  map_Forall (λ resourceName weight,
    0 <= weight
    ∧ int64Of used resourceName = 0
    ∧ 0 < int64Of allocatable resourceName
    ∧ int64Of allocatable resourceName * MaxNodeScore <= Int64.max) weights →
  0 < weightTotal weights →
  weightTotal weights * MaxNodeScore <= Int64.max →
  loadAwareSchedulingScorer weights used allocatable = Some MaxNodeScore.
Proof.
  intros Hidle Hpos Hmax.
  unfold loadAwareSchedulingScorer, weightTotal in *.
  rewrite !map_fold_foldr in *.
  assert (Forall (λ rw : string * Z,
            0 <= rw.2 ∧ int64Of used rw.1 = 0
            ∧ 0 < int64Of allocatable rw.1
            ∧ int64Of allocatable rw.1 * MaxNodeScore <= Int64.max)
            (map_to_list weights)) as Hall.
  { apply Forall_forall. intros [r w] Hin.
    apply elem_of_map_to_list in Hin. exact (Hidle r w Hin). }
  destruct (scorer_loop_exact used allocatable (map_to_list weights))
    as (H1 & H2 & _ & _).
  { eapply Forall_impl; [exact Hall|]. cbn. intros rw (? & -> & ? & ?). lia. }
  { assumption. }
  cbn zeta in *.
  assert (foldr (uncurry (λ resourceName weight acc,
                   acc + leastRequestedScore (int64Of used resourceName)
                           (int64Of allocatable resourceName) * weight)) 0
                (map_to_list weights)
          = MaxNodeScore
            * foldr (uncurry (λ (_ : string) weight acc, acc + weight)) 0
                (map_to_list weights)) as Hsum.
  { clear -Hall. induction Hall as [|[r w] l (Hw & Hu & Ha & Hcap) _ IH];
      [reflexivity|].
    cbn [foldr uncurry fst snd] in *.
    rewrite IH, Hu, leastRequestedScore_idle by assumption. lia. }
  rewrite Hsum in H1.
  destruct (foldr (uncurry (scorerStep used allocatable)) (0, 0)
              (map_to_list weights)) as [nodeScore weightSum].
  cbn [fst snd] in *. subst nodeScore weightSum.
  set (total := foldr (uncurry (λ (_ : string) weight acc, acc + weight)) 0
                  (map_to_list weights)) in *.
  destruct (Z.eqb_spec total 0); [lia|].
  unfold Int64.quot. rewrite Z.quot_mul by assumption. reflexivity.
Qed.

(** X17.  Go visits the weight map in no fixed order.  In whatever order the
    weighted resources are visited, the loop of the scorer ends in the same
    score, or in the same panic. *)
Theorem loadAwareSchedulingScorer_any_order weights used allocatable
    (visited : list (string * Z)) :
  visited ≡ₚ map_to_list weights →
  (let '(nodeScore, weightSum) :=
     foldr (uncurry (scorerStep used allocatable)) (0, 0) visited in
   if weightSum =? 0 then None else Some (Int64.quot nodeScore weightSum))
  = loadAwareSchedulingScorer weights used allocatable.
Proof.
  intros Hperm. unfold loadAwareSchedulingScorer.
  rewrite map_fold_foldr.
  rewrite (scorer_loop_order used allocatable _ _ Hperm). reflexivity.
Qed.

End ScorerEdgeFacts.

Lemma loadAwareSchedulingScorer_saturated_witness :
  LoadAware.loadAwareSchedulingScorer Sample.weights
    {[ ResourceCPU := 1200; ResourceMemory := 64 ]}
    {[ ResourceCPU := 1000; ResourceMemory := 64 ]} = Some 0.
Proof.
  apply loadAwareSchedulingScorer_saturated.
  - unfold Sample.weights.
    apply map_Forall_insert_2; [|apply map_Forall_singleton];
      vm_compute; discriminate.
  - vm_compute. discriminate.
Defined.

Lemma loadAwareSchedulingScorer_idle_witness :
  LoadAware.loadAwareSchedulingScorer Sample.weights ∅
    {[ ResourceCPU := 1000; ResourceMemory := 64 ]}
  = Some LoadAware.MaxNodeScore.
Proof.
  apply loadAwareSchedulingScorer_idle.
  - unfold Sample.weights.
    apply map_Forall_insert_2; [|apply map_Forall_singleton];
      vm_compute; repeat split; discriminate.
  - vm_compute. reflexivity.
  - vm_compute. discriminate.
Defined.

(** The weighted resources visited backwards. *)
Lemma loadAwareSchedulingScorer_any_order_witness :
  (let '(nodeScore, weightSum) :=
     foldr (uncurry (LoadAware.scorerStep
                       {[ ResourceCPU := 300; ResourceMemory := 10 ]}
                       {[ ResourceCPU := 1000; ResourceMemory := 64 ]}))
           (0, 0) (reverse (map_to_list Sample.weights)) in
   if weightSum =? 0 then None else Some (Int64.quot nodeScore weightSum))
  = LoadAware.loadAwareSchedulingScorer Sample.weights
      {[ ResourceCPU := 300; ResourceMemory := 10 ]}
      {[ ResourceCPU := 1000; ResourceMemory := 64 ]}.
Proof.
  apply loadAwareSchedulingScorer_any_order. apply reverse_Permutation.
Defined.

(** More usage, no higher score: 700 against 300 of 1000.  More capacity,
    no lower score: 300 of 1000 against 300 of 2000. *)
Lemma leastRequestedScore_monotone_witness :
  LoadAware.leastRequestedScore 700 1000 <= LoadAware.leastRequestedScore 300 1000
  ∧ LoadAware.leastRequestedScore 300 1000
    <= LoadAware.leastRequestedScore 300 2000.
Proof.
  apply leastRequestedScore_monotone;
    unfold LoadAware.MaxNodeScore, Int64.max; lia.
Defined.

(** * Further properties of the batch-resource plugin *)

Section BatchOutcomeFacts.

Import Framework BatchResource Spec.

Context (IsScalarResourceName : string → bool).

Local Abbreviation Add := (Add IsScalarResourceName).
Local Abbreviation SetMaxResource := (SetMaxResource IsScalarResourceName).
Local Abbreviation podRequest := (podRequest IsScalarResourceName).
Local Abbreviation computePodBatchRequest :=
  (computePodBatchRequest IsScalarResourceName).
Local Abbreviation fitsRequest := (fitsRequest IsScalarResourceName).
Local Abbreviation Filter := (BatchResource.Filter IsScalarResourceName).

(** A resource list that does not mention a name leaves it as it is. *)
Lemma Add_absent r (rl : gmap string Quantity) name :
  rl !! name = None →
  ScalarResources (Add r rl) !! name = ScalarResources r !! name.
Proof.
  unfold Framework.Add.
  apply (map_fold_weak_ind (λ acc (m : gmap string Quantity),
    m !! name = None →
    ScalarResources acc !! name = ScalarResources r !! name)).
  { reflexivity. }
  intros i x m acc Hfresh IH Hnone.
  apply lookup_insert_None in Hnone as [Hm Hne].
  destruct (isNativeField i); [auto|].
  destruct (IsScalarResourceName i); [|auto].
  unfold AddScalar, SetScalar. cbn [ScalarResources].
  rewrite lookup_insert_ne by assumption. auto.
Qed.

Lemma SetMaxResource_absent r (rl : gmap string Quantity) name :
  rl !! name = None →
  ScalarResources (SetMaxResource r rl) !! name = ScalarResources r !! name.
Proof.
  unfold Framework.SetMaxResource.
  apply (map_fold_weak_ind (λ acc (m : gmap string Quantity),
    m !! name = None →
    ScalarResources acc !! name = ScalarResources r !! name)).
  { reflexivity. }
  intros i x m acc Hfresh IH Hnone.
  apply lookup_insert_None in Hnone as [Hm Hne].
  destruct (isNativeField i); [auto|].
  destruct (IsScalarResourceName i); [|auto].
  unfold SetScalar. cbn [ScalarResources].
  rewrite lookup_insert_ne by assumption. auto.
Qed.

Lemma declaredValues_nil name c containers :
  declaredValues name (c :: containers) = [] →
  Requests c !! name = None ∧ declaredValues name containers = [].
Proof.
  unfold declaredValues. cbn [omap list_omap].
  destruct (Requests c !! name); cbn; [discriminate|auto].
Qed.

Lemma fold_Add_absent containers r name :
  declaredValues name containers = [] →
  ScalarResources
    (fold_left (λ r container, Add r (Requests container)) containers r) !! name
  = ScalarResources r !! name.
Proof.
  revert r. induction containers as [|c cs IH]; intros r Hnil; [reflexivity|].
  apply declaredValues_nil in Hnil as [Hc Hcs].
  cbn [fold_left]. rewrite IH by assumption. apply Add_absent, Hc.
Qed.

Lemma fold_SetMaxResource_absent containers r name :
  declaredValues name containers = [] →
  ScalarResources
    (fold_left (λ r container, SetMaxResource r (Requests container))
               containers r) !! name
  = ScalarResources r !! name.
Proof.
  revert r. induction containers as [|c cs IH]; intros r Hnil; [reflexivity|].
  apply declaredValues_nil in Hnil as [Hc Hcs].
  cbn [fold_left]. rewrite IH by assumption. apply SetMaxResource_absent, Hc.
Qed.

Lemma podRequest_undeclared pod name :
  declares name pod = false →
  ScalarResources (podRequest pod) !! name = None.
Proof.
  unfold declares, BatchResource.podRequest, overheadValue. intros H.
  destruct (declaredValues name (Containers pod)) eqn:Hc; [|discriminate H].
  destruct (declaredValues name (InitContainers pod)) eqn:Hi; [|discriminate H].
  assert (match Overhead pod with
          | Some overhead => overhead !! name = None
          | None => True
          end) as Ho.
  { destruct (Overhead pod) as [overhead|]; [|exact I].
    destruct (overhead !! name); [discriminate H|reflexivity]. }
  clear H. destruct (Overhead pod) as [overhead|].
  - rewrite Add_absent, fold_SetMaxResource_absent, fold_Add_absent
      by assumption. apply lookup_empty.
  - rewrite fold_SetMaxResource_absent, fold_Add_absent by assumption.
    apply lookup_empty.
Qed.

(** X19.  A pod none of whose containers, init containers or overhead mentions a
    batch-tier resource, under either naming generation, is admitted on
    every node, whatever the node has left. *)
Theorem Filter_admits_pod_without_batch_resources pod nodeInfo :
  declares BatchCPU pod = false → declares BatchMemory pod = false →
  declares KoordBatchCPU pod = false → declares KoordBatchMemory pod = false →
  fitsRequest pod nodeInfo = [] ∧ Filter pod nodeInfo = StatusNil.
Proof.
  intros H1 H2 H3 H4.
  assert (fitsRequest pod nodeInfo = []) as E.
  { unfold BatchResource.fitsRequest, BatchResource.computePodBatchRequest.
    rewrite !podRequest_undeclared by assumption. reflexivity. }
  split; [exact E|]. unfold BatchResource.Filter. rewrite E. reflexivity.
Qed.

(** X20.  The batch filter never answers with an error.  It admits, or rejects as
    unschedulable with one or two reasons, each of them one of the two fixed
    texts, the cpu one first. *)
Theorem Filter_outcomes pod nodeInfo :
  Filter pod nodeInfo = StatusNil
  ∨ Filter pod nodeInfo = NewStatus Unschedulable ["Insufficient batch cpu"]
  ∨ Filter pod nodeInfo = NewStatus Unschedulable ["Insufficient batch memory"]
  ∨ Filter pod nodeInfo
    = NewStatus Unschedulable
        ["Insufficient batch cpu"; "Insufficient batch memory"].
Proof.
  unfold BatchResource.Filter, BatchResource.fitsRequest.
  destruct ((MilliCPU (computePodBatchRequest pod) =? 0)
            && (Memory (computePodBatchRequest pod) =? 0)); [left; reflexivity|].
  destruct (Int64.sub (MilliCPU (computeNodeBatchAllocatable nodeInfo))
                      (MilliCPU (computeNodeBatchRequested nodeInfo))
            <? MilliCPU (computePodBatchRequest pod));
    destruct (Int64.sub (Memory (computeNodeBatchAllocatable nodeInfo))
                        (Memory (computeNodeBatchRequested nodeInfo))
              <? Memory (computePodBatchRequest pod)); cbn; auto.
Qed.

End BatchOutcomeFacts.

(** The sample web pod asks for cpu and memory only. *)
Lemma Filter_admits_pod_without_batch_resources_witness :
  BatchResource.fitsRequest Sample.isScalar Sample.webPod Sample.mixedNode = []
  ∧ BatchResource.Filter Sample.isScalar Sample.webPod Sample.mixedNode
    = StatusNil.
Proof.
  apply Filter_admits_pod_without_batch_resources; reflexivity.
Defined.

(** * The tracker seen from one node *)

Section TrackerFacts.

Import LoadAware Spec.

Context (PriorityClass : Type)
        (PodRequestsAndLimits : Pod → gmap string Quantity * gmap string Quantity)
        (GetPriorityClass : Pod → PriorityClass)
        (TranslateResourceNameByPriorityClass : PriorityClass → string → string).

Local Abbreviation Score :=
  (Score PriorityClass PodRequestsAndLimits GetPriorityClass
         TranslateResourceNameByPriorityClass).

(** X21.  The score of a node looks at the assignments tracked for that node
    only: whatever is tracked for another node, be it added, replaced or
    emptied, changes nothing, neither the score nor a panic. *)
Theorem Score_ignores_other_nodes p now pod nodeName other items :
  other ≠ nodeName →
  Score (withItems p other items) now pod nodeName = Score p now pod nodeName.
Proof.
  intros Hne. unfold LoadAware.Score, LoadAware.estimatedAssignedPodUsage,
    withItems.
  cbn [nodeInfos args nodeMetricLister podInfoItems].
  rewrite lookup_insert_ne by assumption. reflexivity.
Qed.

End TrackerFacts.

(** Three assignments tracked for another node. *)
Lemma Score_ignores_other_nodes_witness :
  let p := Sample.thresholdPlugin
             (LoadAware.Found (Sample.freshSnapshot Sample.busyUsage)) in
  LoadAware.Score unit Sample.requestsAndLimits Sample.priorityClass
    Sample.translate
    (Spec.withItems p "node-2"
       [Sample.halfIntervalBefore; Sample.atUpdateTime; Sample.oneSecondAfter])
    Sample.soon Sample.webPod "node-1"
  = LoadAware.Score unit Sample.requestsAndLimits Sample.priorityClass
      Sample.translate p Sample.soon Sample.webPod "node-1".
Proof.
  intros p. apply Score_ignores_other_nodes. discriminate.
Defined.
